(** * Ledger and reconciliation core of app_final.py

    A shallow embedding of the three ledgers of the application (milk
    traceability, per-animal weighing, fuel control): the cached tabular
    store, the three registration forms with their derived quantities, the
    per-animal productivity summary and the positional row eraser.

    Numbers are Python floats, i.e. IEEE 754 binary64 values: they are
    modelled by the primitive floats of Rocq, which are the same format with
    the same rounding (to nearest, ties to even). *)

From Stdlib Require Import ZArith List String Ascii Bool Lia.
From Stdlib Require Import Floats Sorted Permutation.
From stdpp Require Import gmap strings.
Import ListNotations.

Set Warnings "-inexact-float".

Local Open Scope string_scope.
Local Open Scope list_scope.

(** ** Tables

    A pandas cell is a missing value, a text, a float or a timestamp.  In a
    numeric column the missing value is the float NaN itself. *)

Inductive cell :=
| NA
| Str (s : string)
| Num (x : float)
| Ts (d : Z).

Definition row := list cell.

(** A DataFrame: the column names and the rows, each with its index label. *)
Record DataFrame := {
  columns : list string;
  rows : list (nat * row)
}.

Definition index (df : DataFrame) : list nat := List.map fst (rows df).
Definition values (df : DataFrame) : list row := List.map snd (rows df).

(** [RangeIndex]: the labels 0, 1, 2, ... *)
Definition range_index (rs : list row) : list (nat * row) :=
  combine (seq 0 (length rs)) rs.

(** [pd.DataFrame(columns=[...])] *)
Definition DataFrame_columns (cols : list string) : DataFrame :=
  {| columns := cols; rows := [] |}.

(** [df.empty] *)
Definition empty (df : DataFrame) : bool :=
  match rows df with [] => true | _ => false end.

(** [pd.isna] on one cell. *)
Definition isna (c : cell) : bool :=
  match c with
  | NA => true
  | Num x => PrimFloat.is_nan x
  | _ => false
  end.

(** [pd.concat([df, new_row], ignore_index=True)] for a one-row frame with the
    columns of [df]. *)
Definition concat_ignore_index (df : DataFrame) (new_row : row) : DataFrame :=
  {| columns := columns df; rows := range_index (values df ++ [new_row]) |}.

(** [df.reset_index(drop=True)] *)
Definition reset_index_drop (df : DataFrame) : DataFrame :=
  {| columns := columns df; rows := range_index (values df) |}.

(** [df.drop(labels, axis=0)]: the rows whose label is not listed; pandas
    raises [KeyError] (here [None]) when a listed label is not in the index. *)
Definition drop (labels : list nat) (df : DataFrame) : option DataFrame :=
  if forallb (fun l => existsb (Nat.eqb l) (index df)) labels
  then Some {| columns := columns df;
               rows := List.filter
                         (fun lr => negb (existsb (Nat.eqb (fst lr)) labels))
                         (rows df) |}
  else None.

(** ** The flat files

    A file is kept as its header and its records, each field being what the
    writer put between two separators once quoting is undone: the characters
    of a text, or the decimal rendering of a number or of a date.  The
    renderings of numbers and dates are not spelled out: the field keeps the
    value they denote. *)

Inductive field :=
| FText (s : string)
| FNum (x : float)
| FDate (d : Z).

Record csv := {
  header : list string;
  records : list (list field)
}.

(** [to_csv]: a missing value is written as the empty field ([na_rep='']). *)
Definition write_cell (c : cell) : field :=
  match c with
  | NA => FText ""
  | Str s => FText s
  | Num x => if PrimFloat.is_nan x then FText "" else FNum x
  | Ts d => FDate d
  end.

(** [df.to_csv(filename, index=False)]: the index labels are not written. *)
Definition to_csv (df : DataFrame) : csv :=
  {| header := columns df;
     records := List.map (List.map write_cell) (values df) |}.

(** The texts that [pd.read_csv] reads as a missing value by default. *)
Definition na_values : list string :=
  [ ""; "#N/A"; "#N/A N/A"; "#NA"; "-1.#IND"; "-1.#QNAN"; "-NaN"; "-nan";
    "1.#IND"; "1.#QNAN"; "<NA>"; "N/A"; "NA"; "NULL"; "NaN"; "None"; "n/a";
    "nan"; "null" ].

Definition is_na_text (s : string) : bool := existsb (String.eqb s) na_values.

(** A field as [pd.read_csv] reads it.  A text that does not spell a missing
    value is read as that text: the conversion of a column whose texts all
    spell numbers or booleans is left out, and a number or a date is the one
    its rendering denotes. *)
Definition read_cell (f : field) : cell :=
  match f with
  | FText s => if is_na_text s then NA else Str s
  | FNum x => Num x
  | FDate d => Ts d
  end.

(** [pd.read_csv(filename, parse_dates=['Fecha'])]: a fresh [RangeIndex]. *)
Definition read_csv (f : csv) : DataFrame :=
  {| columns := header f;
     rows := range_index (List.map (List.map read_cell) (records f)) |}.

(** ** Data files and the cached loaders *)

Definition DATA_FILE_LECHE : string := "data_leche.csv".
Definition DATA_FILE_GASOLINA : string := "data_gasolina.csv".
Definition DATA_FILE_GANADO : string := "data_ganado.csv".

Definition columns_leche : list string :=
  [ "Fecha"; "ID_Lote"; "Vol_Entregado"; "Vol_Pesado"; "Vol_Vendido";
    "Perdida_Pesaje"; "Perdida_Venta"; "Perdida_Total" ].

Definition columns_gasolina : list string :=
  [ "Fecha"; "ID_Ruta"; "Litros_Cargados"; "Costo_Litro";
    "Km_Recorridos"; "Gasto_Total"; "Eficiencia_Km_Litro" ].

Definition columns_ganado : list string :=
  [ "Fecha"; "ID_Animal"; "Nombre_Animal"; "Raza"; "Litros_Pesados" ].

(** The process-wide state: the files on disk and, for each loader decorated
    with [st.cache_data], its cache entry. *)
Record session := {
  disk : gmap string csv;
  cache_leche : option DataFrame;
  cache_gasolina : option DataFrame;
  cache_ganado : option DataFrame
}.

(** The body shared by the three loaders: read the file if it exists, else an
    empty frame with the fixed columns. *)
Definition read_or_empty (filename : string) (cols : list string)
    (d : gmap string csv) : DataFrame :=
  match d !! filename with
  | Some f => read_csv f
  | None => DataFrame_columns cols
  end.

Definition load_data_leche (s : session) : DataFrame * session :=
  match cache_leche s with
  | Some df => (df, s)
  | None =>
      let df := read_or_empty DATA_FILE_LECHE columns_leche (disk s) in
      (df, {| disk := disk s; cache_leche := Some df;
              cache_gasolina := cache_gasolina s;
              cache_ganado := cache_ganado s |})
  end.

Definition load_data_gasolina (s : session) : DataFrame * session :=
  match cache_gasolina s with
  | Some df => (df, s)
  | None =>
      let df := read_or_empty DATA_FILE_GASOLINA columns_gasolina (disk s) in
      (df, {| disk := disk s; cache_leche := cache_leche s;
              cache_gasolina := Some df;
              cache_ganado := cache_ganado s |})
  end.

Definition load_data_ganado (s : session) : DataFrame * session :=
  match cache_ganado s with
  | Some df => (df, s)
  | None =>
      let df := read_or_empty DATA_FILE_GANADO columns_ganado (disk s) in
      (df, {| disk := disk s; cache_leche := cache_leche s;
              cache_gasolina := cache_gasolina s;
              cache_ganado := Some df |})
  end.

(** The frames bound at the top of every run of the script. *)
Record frames := {
  df_leche : DataFrame;
  df_gasolina : DataFrame;
  df_ganado : DataFrame
}.

Definition carga_inicial (s : session) : frames * session :=
  let '(l, s1) := load_data_leche s in
  let '(g, s2) := load_data_gasolina s1 in
  let '(a, s3) := load_data_ganado s2 in
  ({| df_leche := l; df_gasolina := g; df_ganado := a |}, s3).

(** [load_data_X.clear()] for the loader of [filename], if any. *)
Definition clear_cache (filename : string) (s : session) : session :=
  if String.eqb filename DATA_FILE_LECHE then
    {| disk := disk s; cache_leche := None;
       cache_gasolina := cache_gasolina s; cache_ganado := cache_ganado s |}
  else if String.eqb filename DATA_FILE_GASOLINA then
    {| disk := disk s; cache_leche := cache_leche s;
       cache_gasolina := None; cache_ganado := cache_ganado s |}
  else if String.eqb filename DATA_FILE_GANADO then
    {| disk := disk s; cache_leche := cache_leche s;
       cache_gasolina := cache_gasolina s; cache_ganado := None |}
  else s.

(** [df.to_csv(filename, index=False)] on the session: the file is replaced. *)
Definition write_file (df : DataFrame) (filename : string) (s : session)
    : session :=
  {| disk := <[filename := to_csv df]> (disk s);
     cache_leche := cache_leche s;
     cache_gasolina := cache_gasolina s;
     cache_ganado := cache_ganado s |}.

(** [st.experimental_rerun()]: the script starts again from its first line,
    which loads the three frames. *)
Definition experimental_rerun (s : session) : session := snd (carga_inicial s).

Definition save_data_and_rerun (df : DataFrame) (filename : string)
    (s : session) : session :=
  experimental_rerun (clear_cache filename (write_file df filename s)).

(** ** What a run of the script shows or does after a button is pressed

    [rerun] stands for a call of [save_data_and_rerun]: the run stops there
    and the script starts again.  The messages are those of the script,
    written in ASCII. *)

Inductive outcome :=
| st_error (msg : string)
| st_info (msg : string)
| KeyError
| rerun.

(** A column of a row, by its position in the schema. *)
Definition col (i : nat) (r : row) : cell := nth i r NA.

(** ** Module 1: milk traceability *)

Definition perdida_pesaje (vol_entregado vol_pesado : float) : float :=
  (vol_entregado - vol_pesado)%float.
Definition perdida_venta (vol_pesado vol_vendido : float) : float :=
  (vol_pesado - vol_vendido)%float.
Definition perdida_total (vol_entregado vol_vendido : float) : float :=
  (vol_entregado - vol_vendido)%float.

Definition new_row_leche (fecha_registro : Z) (id_lote : string)
    (vol_entregado vol_pesado vol_vendido : float) : row :=
  [ Ts fecha_registro; Str id_lote;
    Num vol_entregado; Num vol_pesado; Num vol_vendido;
    Num (perdida_pesaje vol_entregado vol_pesado);
    Num (perdida_venta vol_pesado vol_vendido);
    Num (perdida_total vol_entregado vol_vendido) ].

Definition Perdida_Pesaje : row -> cell := col 5.
Definition Perdida_Venta : row -> cell := col 6.
Definition Perdida_Total : row -> cell := col 7.

(** The form "registro_leche" once submitted, with the values its widgets
    return. *)
Definition registro_leche (fecha_registro : Z) (id_lote : string)
    (vol_entregado vol_pesado vol_vendido : float)
    (fr : frames) (s : session) : outcome * session :=
  if (vol_entregado <? vol_pesado)%float || (vol_pesado <? vol_vendido)%float
  then (st_error "Error de datos: El volumen pesado no puede ser mayor al entregado, ni el vendido mayor al pesado.", s)
  else if String.eqb id_lote ""
  then (st_error "El ID o Nombre del Lote es obligatorio.", s)
  else
    let df_leche_local := df_leche fr in
    let new_row :=
      new_row_leche fecha_registro id_lote vol_entregado vol_pesado vol_vendido in
    let df_leche_nuevo := concat_ignore_index df_leche_local new_row in
    (rerun, save_data_and_rerun df_leche_nuevo DATA_FILE_LECHE s).

(** ** Module 3: fuel control *)

Definition gasto_total (litros_cargados costo_litro : float) : float :=
  (litros_cargados * costo_litro)%float.

(** [km_recorridos / litros_cargados if litros_cargados > 0 else 0]; the
    integer 0 of the script is the float 0 of the column it is stored in. *)
Definition eficiencia (km_recorridos litros_cargados : float) : float :=
  if (0 <? litros_cargados)%float
  then (km_recorridos / litros_cargados)%float
  else 0%float.

Definition new_row_gasolina (fecha_gasolina : Z) (id_ruta : string)
    (litros_cargados costo_litro km_recorridos : float) : row :=
  [ Ts fecha_gasolina; Str id_ruta;
    Num litros_cargados; Num costo_litro; Num km_recorridos;
    Num (gasto_total litros_cargados costo_litro);
    Num (eficiencia km_recorridos litros_cargados) ].

Definition Litros_Cargados : row -> cell := col 2.
Definition Costo_Litro : row -> cell := col 3.
Definition Km_Recorridos : row -> cell := col 4.
Definition Gasto_Total : row -> cell := col 5.
Definition Eficiencia_Km_Litro : row -> cell := col 6.

(** The form "registro_gasolina" once submitted. *)
Definition registro_gasolina (fecha_gasolina : Z) (id_ruta : string)
    (litros_cargados km_recorridos costo_litro : float)
    (fr : frames) (s : session) : outcome * session :=
  if String.eqb id_ruta ""
  then (st_error "El ID de la Ruta es obligatorio para el seguimiento.", s)
  else if (km_recorridos =? 0)%float && (0 <? litros_cargados)%float
  then (st_error "Los Kilometros Recorridos deben ser mayores a cero para calcular la eficiencia si se cargo combustible.", s)
  else if (litros_cargados =? 0)%float && (0 <? km_recorridos)%float
  then (st_error "Se requiere cargar litros para calcular la eficiencia del recorrido.", s)
  else
    let df_gasolina_local := df_gasolina fr in
    let new_row_gasolina :=
      new_row_gasolina fecha_gasolina id_ruta
                       litros_cargados costo_litro km_recorridos in
    let df_gasolina_nuevo :=
      concat_ignore_index df_gasolina_local new_row_gasolina in
    (rerun, save_data_and_rerun df_gasolina_nuevo DATA_FILE_GASOLINA s).

(** ** Module 2: livestock inventory *)

Definition ID_Animal : row -> cell := col 1.
Definition Nombre_Animal : row -> cell := col 2.
Definition Raza : row -> cell := col 3.
Definition Litros_Pesados : row -> cell := col 4.

Definition raza_options : list string :=
  [ "Holstein"; "Jersey"; "Pardo Suizo"; "Gyr"; "Otra" ].

(** [l.index(x)] when [x in l]. *)
Fixpoint list_index (x : string) (l : list string) : option nat :=
  match l with
  | [] => None
  | y :: l' => if String.eqb x y then Some 0
               else option_map S (list_index x l')
  end.

(** [raza_options.index(last_raza) if last_raza in raza_options else 4] *)
Definition raza_index (last_raza : cell) : nat :=
  match last_raza with
  | Str s => match list_index s raza_options with
             | Some i => i
             | None => 4
             end
  | _ => 4
  end.

(** [df_ganado[df_ganado['ID_Animal'] == id_animal]] *)
Definition animal_data (id_animal : string) (df : DataFrame) : list row :=
  List.filter
    (fun r => match ID_Animal r with
              | Str s => String.eqb s id_animal
              | _ => false
              end)
    (values df).

(** The breed offered first by the form: that of the last record of the
    animal, ['Holstein'] when there is none. *)
Definition last_raza (id_animal : string) (df : DataFrame) : cell :=
  if negb (String.eqb id_animal "") && negb (empty df) then
    match animal_data id_animal df with
    | [] => Str "Holstein"
    | r :: g =>
        if existsb (String.eqb "Raza") (columns df)
        then Raza (List.last g r)
        else Str "Holstein"
    end
  else Str "Holstein".

(** [st.selectbox(options, index)]: the option the user picked, or the one at
    [index] when the widget was left as it rendered. *)
Definition selectbox (options : list string) (index : nat)
    (picked : option nat) : string :=
  match picked with
  | Some i => if (i <? length options)%nat then nth i options ""
              else nth index options ""
  | None => nth index options ""
  end.

Definition raza_animal (id_animal : string) (df : DataFrame)
    (picked : option nat) : string :=
  selectbox raza_options (raza_index (last_raza id_animal df)) picked.

Definition new_row_ganado (fecha_pesaje : Z) (id_animal nombre_animal : string)
    (raza_animal : string) (litros_pesados : float) : row :=
  [ Ts fecha_pesaje; Str id_animal; Str nombre_animal; Str raza_animal;
    Num litros_pesados ].

(** The form "registro_ganado" once submitted.  [nombre_animal] is the text
    the name widget returns, [picked] what was done to the breed widget. *)
Definition registro_ganado (fecha_pesaje : Z) (id_animal nombre_animal : string)
    (picked : option nat) (litros_pesados : float)
    (fr : frames) (s : session) : outcome * session :=
  let raza_animal := raza_animal id_animal (df_ganado fr) picked in
  if String.eqb id_animal ""
  then (st_error "El ID Unico del Animal es obligatorio.", s)
  else
    let df_ganado_local := df_ganado fr in
    let new_row_ganado :=
      new_row_ganado fecha_pesaje id_animal nombre_animal raza_animal
                     litros_pesados in
    let df_ganado_nuevo := concat_ignore_index df_ganado_local new_row_ganado in
    (rerun, save_data_and_rerun df_ganado_nuevo DATA_FILE_GANADO s).

(** *** Productivity summary *)

(** Stable insertion sort for a boolean order, used for the two orderings
    pandas produces: group keys ascending and [sort_values] (the order in
    which [sort_values] leaves rows of equal key is not specified by pandas;
    here they keep their order). *)
Fixpoint insert_sorted {A : Type} (leb : A -> A -> bool) (x : A) (l : list A)
    : list A :=
  match l with
  | [] => [x]
  | y :: l' => if leb x y then x :: l else y :: insert_sorted leb x l'
  end.

Definition sort_by {A : Type} (leb : A -> A -> bool) (l : list A) : list A :=
  fold_right (insert_sorted leb) [] l.

(** The text of a cell of a text column. *)
Definition as_text (c : cell) : option string :=
  match c with
  | Str s => Some s
  | _ => None
  end.

(** The number of a cell of a float column; NaN is the missing value. *)
Definition as_number (c : cell) : option float :=
  match c with
  | Num x => if PrimFloat.is_nan x then None else Some x
  | _ => None
  end.

(** The keys of [groupby('ID_Animal')]: the distinct identifiers, sorted;
    rows whose identifier is missing belong to no group. *)
Definition group_keys (df : DataFrame) : list string :=
  sort_by String.leb
    (nodup String.string_dec
       (omap (fun r => as_text (ID_Animal r)) (values df))).

(** The rows of one group, in the order of the frame. *)
Definition group (k : string) (df : DataFrame) : list row :=
  List.filter
    (fun r => match as_text (ID_Animal r) with
              | Some s => String.eqb s k
              | None => false
              end)
    (values df).

(** ['last']: the last entry that is not missing. *)
Definition agg_last (cs : list cell) : cell :=
  List.last (List.filter (fun c => negb (isna c)) cs) NA.

(** The accumulator of the grouped sum and mean of pandas: the values are
    added in the order of the rows with a running compensation of the
    rounding error (Kahan summation); a compensation that is NaN, as an
    infinite value produces, is reset. *)
Fixpoint kahan_sum (sumx compensation : float) (vals : list float) : float :=
  match vals with
  | [] => sumx
  | val :: vals' =>
      let y := (val - compensation)%float in
      let t := (sumx + y)%float in
      let c := (t - sumx - y)%float in
      kahan_sum t (if PrimFloat.is_nan c then 0%float else c) vals'
  end.

(** ['sum']: over the entries that are not missing. *)
Definition agg_sum (cs : list cell) : float :=
  kahan_sum 0 0 (omap as_number cs).

(** ['count']: the number of entries that are not missing. *)
Definition agg_count (cs : list cell) : nat :=
  length (List.filter (fun c => negb (isna c)) cs).

Definition float_of_nat (n : nat) : float :=
  PrimFloat.of_uint63 (Uint63.of_Z (Z.of_nat n)).

(** ['mean']: the sum of the entries that are not missing over their number
    (NaN when there is none). *)
Definition agg_mean (cs : list cell) : float :=
  (agg_sum cs / float_of_nat (length (omap as_number cs)))%float.

(** One row of [produccion_media]. *)
Record resumen := {
  res_ID_Animal : string;
  Nombre : cell;
  res_Raza : cell;
  Total_Pesado : float;
  Promedio_Diario : float;
  Total_Registros : nat
}.

Definition agg (df : DataFrame) (k : string) : resumen :=
  let g := group k df in
  {| res_ID_Animal := k;
     Nombre := agg_last (List.map Nombre_Animal g);
     res_Raza := agg_last (List.map Raza g);
     Total_Pesado := agg_sum (List.map Litros_Pesados g);
     Promedio_Diario := agg_mean (List.map Litros_Pesados g);
     Total_Registros := agg_count (List.map Litros_Pesados g) |}.

(** The order of [sort_values(by='Promedio_Diario', ascending=False)]: larger
    means first, NaN means last. *)
Definition mean_geb (a b : resumen) : bool :=
  if PrimFloat.is_nan (Promedio_Diario b) then true
  else if PrimFloat.is_nan (Promedio_Diario a) then false
  else (Promedio_Diario b <=? Promedio_Diario a)%float.

Definition produccion_media (df : DataFrame) : list resumen :=
  sort_by mean_geb (List.map (agg df) (group_keys df)).

(** The analysis tab: the summary is computed only for a frame with rows. *)
Definition tab_analisis_ganado (fr : frames) : option (list resumen) :=
  if negb (empty (df_ganado fr)) then Some (produccion_media (df_ganado fr))
  else None.

(** ** Deleting records *)

(** [df.reset_index().rename(columns={'index': 'ID_Fila'})]: every row keeps
    its former label in the column [ID_Fila] and gets a fresh label. *)
Definition df_display (df : DataFrame) : list (nat * (nat * row)) :=
  combine (seq 0 (length (rows df))) (rows df).

Definition ID_Fila (d : nat * (nat * row)) : nat := fst (snd d).

(** The options of the multiselect: [df_display['ID_Fila'].tolist()]. *)
Definition multiselect_options (df : DataFrame) : list nat :=
  List.map ID_Fila (df_display df).

(** [df_display[df_display['ID_Fila'].isin(rows_to_delete)].index] *)
Definition indices_to_delete (df : DataFrame) (rows_to_delete : list nat)
    : list nat :=
  List.map fst
    (List.filter (fun d => existsb (Nat.eqb (ID_Fila d)) rows_to_delete)
                 (df_display df)).

(** [df.drop(indices_to_delete, axis=0).reset_index(drop=True)] *)
Definition df_nuevo (df : DataFrame) (rows_to_delete : list nat)
    : option DataFrame :=
  option_map reset_index_drop (drop (indices_to_delete df rows_to_delete) df).

(** The delete part of a tab, shared by the three ledgers: it is shown only
    for a frame with rows ([no_data] is what the tab says otherwise). *)
Definition eliminar_registros (no_data : string) (rows_to_delete : list nat)
    (df : DataFrame) (filename : string) (s : session) : outcome * session :=
  if empty df then (st_info no_data, s)
  else
    match rows_to_delete with
    | [] => (st_info "No hay filas seleccionadas para eliminar.", s)
    | _ :: _ =>
        match df_nuevo df rows_to_delete with
        | Some d => (rerun, save_data_and_rerun d filename s)
        | None => (KeyError, s)
        end
    end.

Definition borrar_leche (rows_to_delete : list nat) (fr : frames) :=
  eliminar_registros "Aun no hay datos de trazabilidad de leche registrados."
                     rows_to_delete (df_leche fr) DATA_FILE_LECHE.
Definition borrar_ganado (rows_to_delete : list nat) (fr : frames) :=
  eliminar_registros "No hay datos para borrar."
                     rows_to_delete (df_ganado fr) DATA_FILE_GANADO.
Definition borrar_gasolina (rows_to_delete : list nat) (fr : frames) :=
  eliminar_registros "No hay datos para borrar."
                     rows_to_delete (df_gasolina fr) DATA_FILE_GASOLINA.

(** ** The three ledgers, uniformly *)

Inductive ledger := Leche | Gasolina | Ganado.

Definition data_file (k : ledger) : string :=
  match k with
  | Leche => DATA_FILE_LECHE
  | Gasolina => DATA_FILE_GASOLINA
  | Ganado => DATA_FILE_GANADO
  end.

Definition load (k : ledger) : session -> DataFrame * session :=
  match k with
  | Leche => load_data_leche
  | Gasolina => load_data_gasolina
  | Ganado => load_data_ganado
  end.

Definition persist (k : ledger) (df : DataFrame) : session -> session :=
  save_data_and_rerun df (data_file k).

(** ** Vocabulary of the statements *)

(** The cache entry of the loader of a ledger, and its fixed columns. *)
Definition cache_of (k : ledger) (s : session) : option DataFrame :=
  match k with
  | Leche => cache_leche s
  | Gasolina => cache_gasolina s
  | Ganado => cache_ganado s
  end.

Definition columns_of (k : ledger) : list string :=
  match k with
  | Leche => columns_leche
  | Gasolina => columns_gasolina
  | Ganado => columns_ganado
  end.

(** What is on disk for a ledger, as a loader reads it. *)
Definition on_disk (k : ledger) (s : session) : DataFrame :=
  read_or_empty (data_file k) (columns_of k) (disk s).

(** Sequences of loads and saves. *)
Inductive op :=
| Load (k : ledger)
| Persist (k : ledger) (df : DataFrame).

Definition step (s : session) (o : op) : session :=
  match o with
  | Load k => snd (load k s)
  | Persist k df => persist k df s
  end.

Definition run (ops : list op) (s : session) : session :=
  fold_left step ops s.

(** A cell that the file gives back as it was written: not a text that
    spells a missing value, not a NaN. *)
Definition keeps_value (c : cell) : bool :=
  match c with
  | NA => true
  | Str s => negb (is_na_text s)
  | Num x => negb (PrimFloat.is_nan x)
  | Ts _ => true
  end.

(** Membership of a position in the selection of the multiselect. *)
Definition selected (rows_to_delete : list nat) (i : nat) : bool :=
  existsb (Nat.eqb i) rows_to_delete.

(** The position a surviving row gets: the number of surviving rows before
    it. *)
Definition new_position (rows_to_delete : list nat) (i : nat) : nat :=
  length (List.filter (fun j => negb (selected rows_to_delete j)) (seq 0 i)).

(** The binary64 values that are not negative and not NaN. *)
Definition sf_nonneg (x : spec_float) : bool :=
  match x with
  | S754_zero _ => true
  | S754_infinity s => negb s
  | S754_finite s _ _ => negb s
  | S754_nan => false
  end.

(** ** Sessions and frames of the examples *)

(** A first run: no file on disk, nothing cached. *)
Definition session_0 : session :=
  {| disk := ∅; cache_leche := None; cache_gasolina := None;
     cache_ganado := None |}.

Definition frames_0 : frames := fst (carga_inicial session_0).

(** A livestock frame whose only record carries a breed that is not one of
    the options of the form. *)
Definition df_brahman : DataFrame :=
  {| columns := columns_ganado;
     rows := range_index
               [ [Ts 0; Str "V7"; Str "Luna"; Str "Brahman"; Num 5%float] ] |}.


(** The livestock frame after two weighings of one animal. *)
Definition df_dos_pesajes : DataFrame :=
  concat_ignore_index
    (concat_ignore_index (DataFrame_columns columns_ganado)
                         (new_row_ganado 0 "V7" "Luna" "Holstein" 5%float))
    (new_row_ganado 1 "V7" "Luna" "Holstein" 7%float).

(** A livestock frame of three rows, as loaded from its file. *)
Definition df_tres : DataFrame :=
  read_csv (to_csv
    {| columns := columns_ganado;
       rows := range_index
                 [ new_row_ganado 0 "V7" "Luna" "Holstein" 5%float;
                   new_row_ganado 0 "V8" "Mora" "Jersey" 7%float;
                   new_row_ganado 1 "V9" "Perla" "Gyr" 10%float ] |}).





(** ** The rest of the script

    The parts of the script around the forms, the summary and the delete
    buttons: the name offered by the livestock form, the tables and charts
    of the tabs, and a run of the script as a whole. *)

Definition Fecha : row -> cell := col 0.


(** The day of a cell of the date column.  The forms store the midnight of
    the day picked, so that a timestamp [Ts d] is kept as its day [d] and
    [.dt.date] leaves it as it is; a missing date is NaT. *)
Definition as_date (c : cell) : option Z :=
  match c with
  | Ts d => Some d
  | _ => None
  end.

(** The rows of one day, in the order of the frame. *)
Definition rows_of_day (d : Z) (df : DataFrame) : list row :=
  List.filter
    (fun r => match as_date (Fecha r) with
              | Some d' => Z.eqb d' d
              | None => false
              end)
    (values df).

(** [df_chart.groupby(df_chart['Fecha'].dt.date)['Perdida_Total'].sum()
    .reset_index()]: the total loss of every day, days ascending. *)
Definition df_chart_grouped (df : DataFrame) : list (Z * float) :=
  List.map
    (fun d => (d, agg_sum (List.map Perdida_Total (rows_of_day d df))))
    (sort_by Z.leb
       (nodup Z.eq_dec (omap (fun r => as_date (Fecha r)) (values df)))).

(** [df[cols]]: the columns listed, by their position in the schema. *)
Definition project (cols : list nat) (r : row) : row :=
  List.map (fun i => col i r) cols.

(** The order of [sort_values(by='Fecha', ascending=False)]: later days
    first, NaT last. *)
Definition fecha_geb (a b : cell) : bool :=
  match as_date b with
  | None => true
  | Some db => match as_date a with
               | None => false
               | Some da => (db <=? da)%Z
               end
  end.

(** [df_display[['ID_Fila'] + cols].sort_values(by='Fecha', ascending=False)]
    for a list of columns that starts with the date: the table of a tab,
    every row with its [ID_Fila]. *)
Definition historial (cols : list nat) (df : DataFrame) : list (nat * row) :=
  sort_by (fun a b => fecha_geb (Fecha (snd a)) (Fecha (snd b)))
          (List.map (fun d => (ID_Fila d, project cols (snd (snd d))))
                    (df_display df)).

Definition historial_leche : DataFrame -> list (nat * row) :=
  historial [0; 1; 2; 3; 4; 5; 6; 7].
Definition historial_ganado : DataFrame -> list (nat * row) :=
  historial [0; 1; 2; 4].
Definition historial_gasolina : DataFrame -> list (nat * row) :=
  historial [0; 1; 5; 6].

(** [produccion_media.head(10)]: the rows of the bar chart. *)
Definition top_10 (df : DataFrame) : list resumen :=
  firstn 10 (produccion_media df).

(** *** A run of the script

    Every interaction runs the script from its first line: the three frames
    are loaded, then the form submitted or the delete button pressed is
    handled with these frames. *)

Inductive action :=
| Registro_leche (fecha_registro : Z) (id_lote : string)
    (vol_entregado vol_pesado vol_vendido : float)
| Registro_ganado (fecha_pesaje : Z) (id_animal nombre_animal : string)
    (picked : option nat) (litros_pesados : float)
| Registro_gasolina (fecha_gasolina : Z) (id_ruta : string)
    (litros_cargados km_recorridos costo_litro : float)
| Btn_delete_leche (rows_to_delete : list nat)
| Btn_delete_ganado (rows_to_delete : list nat)
| Btn_delete_gasolina (rows_to_delete : list nat).

Definition script (a : action) (s : session) : outcome * session :=
  let '(fr, s1) := carga_inicial s in
  match a with
  | Registro_leche f id ve vp vv => registro_leche f id ve vp vv fr s1
  | Registro_ganado f id nombre picked l =>
      registro_ganado f id nombre picked l fr s1
  | Registro_gasolina f id l km c => registro_gasolina f id l km c fr s1
  | Btn_delete_leche rows_to_delete => borrar_leche rows_to_delete fr s1
  | Btn_delete_ganado rows_to_delete => borrar_ganado rows_to_delete fr s1
  | Btn_delete_gasolina rows_to_delete => borrar_gasolina rows_to_delete fr s1
  end.

(** The ledger an interaction is about, and the delete button of a ledger. *)
Definition ledger_of (a : action) : ledger :=
  match a with
  | Registro_leche _ _ _ _ _ | Btn_delete_leche _ => Leche
  | Registro_ganado _ _ _ _ _ | Btn_delete_ganado _ => Ganado
  | Registro_gasolina _ _ _ _ _ | Btn_delete_gasolina _ => Gasolina
  end.


(** The session after a sequence of interactions. *)
Definition play (acts : list action) (s : session) : session :=
  fold_left (fun s a => snd (script a s)) acts s.

(** What [st.number_input(min_value=0.0)] returns: a finite float that is
    not negative. *)
Definition number_input (x : float) : Prop :=
  PrimFloat.is_finite x = true /\ (0 <=? x)%float = true.

(** The interactions whose numbers are values of the number widgets. *)
Definition from_widgets (a : action) : Prop :=
  match a with
  | Registro_leche _ _ ve vp vv =>
      number_input ve /\ number_input vp /\ number_input vv
  | Registro_ganado _ _ _ _ l => number_input l
  | Registro_gasolina _ _ l km c =>
      number_input l /\ number_input km /\ number_input c
  | _ => True
  end.

(** The frame of a ledger among those bound at the top of a run. *)
Definition frame_of (k : ledger) (fr : frames) : DataFrame :=
  match k with
  | Leche => df_leche fr
  | Gasolina => df_gasolina fr
  | Ganado => df_ganado fr
  end.

(** *** What the ledgers hold *)

(** The caches agree with the files. *)
Definition coherent (s : session) : Prop :=
  forall k df, cache_of k s = Some df -> df = on_disk k s.

(** A text cell of a loaded frame: missing, or a text that does not spell a
    missing value. *)
Definition stored_text (c : cell) : Prop :=
  c = NA \/ exists t, c = Str t /\ is_na_text t = false.

(** A row of the milk ledger: volumes of the number widgets with
    sold <= weighed <= delivered, and the three losses computed from them. *)
Definition leche_row (r : row) : Prop :=
  exists f idc ve vp vv,
    r = [ Ts f; idc; Num ve; Num vp; Num vv;
          Num (perdida_pesaje ve vp); Num (perdida_venta vp vv);
          Num (perdida_total ve vv) ] /\
    stored_text idc /\
    number_input ve /\ number_input vp /\ number_input vv /\
    (vv <=? vp)%float = true /\ (vp <=? ve)%float = true.

(** A row of the fuel ledger: amounts of the number widgets, not one of
    liters and kilometers positive with the other zero, and the cost and the
    efficiency computed from them. *)
Definition gasolina_row (r : row) : Prop :=
  exists f idc l c km,
    r = [ Ts f; idc; Num l; Num c; Num km;
          Num (gasto_total l c); Num (eficiencia km l) ] /\
    stored_text idc /\
    number_input l /\ number_input c /\ number_input km /\
    ((km =? 0) && (0 <? l))%float = false /\
    ((l =? 0) && (0 <? km))%float = false.

(** A row of the livestock ledger: a breed of the closed set and a volume of
    the number widget. *)
Definition ganado_row (r : row) : Prop :=
  exists f idc nc b l,
    r = [ Ts f; idc; nc; Str b; Num l ] /\
    stored_text idc /\ stored_text nc /\
    In b raza_options /\ number_input l.

Definition ledger_row (k : ledger) : row -> Prop :=
  match k with
  | Leche => leche_row
  | Gasolina => gasolina_row
  | Ganado => ganado_row
  end.

(** The three ledgers as the script keeps them: caches that agree with the
    files, and files with the fixed columns whose rows are rows of their
    ledger. *)
Definition ledgers_ok (s : session) : Prop :=
  coherent s /\
  forall k, columns (on_disk k s) = columns_of k /\
            Forall (ledger_row k) (values (on_disk k s)).

(** A row as its file gives it back: every cell read from what is written
    for it. *)
Definition file_gives_back (r : row) : row :=
  List.map (fun c => read_cell (write_cell c)) r.



(** A few interactions, for the examples. *)
Definition acts_demo : list action :=
  [ Registro_leche 0 "L1" 10%float 0.3%float 0.1%float;
    Registro_ganado 0 "V7" "Luna" (Some 1) 5%float;
    Registro_ganado 1 "V8" "" None 8%float;
    Registro_gasolina 0 "R1" 20%float 100%float 1.5%float;
    Registro_leche 1 "" 10%float 5%float 1%float;
    Registro_leche 1 "L2" 10%float 12%float 5%float;
    Btn_delete_ganado [0];
    Registro_ganado 2 "V7" "Luna" None 6%float ].

(** * Facts on binary64 arithmetic

    The primitive operations are specified by the functions of [SpecFloat];
    the facts below are read off these functions. *)

Section SpecFloatFacts.
Local Open Scope Z_scope.

Lemma digits2_pos_bounds (m : positive) :
  2 ^ (Z.pos (digits2_pos m) - 1) <= Z.pos m < 2 ^ Z.pos (digits2_pos m).
Proof.
  assert (step : forall d x, 0 < d -> 2 ^ (d - 1) <= x < 2 ^ d ->
            forall b, 0 <= b <= 1 ->
            2 ^ (Z.succ d - 1) <= 2 * x + b < 2 ^ Z.succ d).
  { intros d x Hd Hx b Hb.
    replace (Z.succ d - 1) with (Z.succ (d - 1)) by lia.
    rewrite !Z.pow_succ_r by lia. lia. }
  induction m as [m IH | m IH |].
  - change (digits2_pos m~1) with (Pos.succ (digits2_pos m)).
    rewrite Pos2Z.inj_succ. change (Z.pos m~1) with (2 * Z.pos m + 1).
    apply step; lia.
  - change (digits2_pos m~0) with (Pos.succ (digits2_pos m)).
    rewrite Pos2Z.inj_succ. change (Z.pos m~0) with (2 * Z.pos m).
    replace (2 * Z.pos m) with (2 * Z.pos m + 0) by lia. apply step; lia.
  - change (2 ^ 0 <= 1 < 2 ^ 1). lia.
Qed.

Lemma iter_xO_double (m d : positive) : 2 * Z.pos m <= Z.pos (Pos.iter xO m d).
Proof.
  induction d as [| d IH] using Pos.peano_ind.
  - cbn. lia.
  - rewrite Pos.iter_succ. rewrite Pos2Z.inj_xO. lia.
Qed.

Lemma shr_1_nonneg mrs : 0 <= shr_m mrs -> 0 <= shr_m (shr_1 mrs).
Proof.
  destruct mrs as [m r s]; cbn.
  destruct m as [| p | p]; cbn; try lia; destruct p; cbn; lia.
Qed.

Lemma iter_shr_1_nonneg p :
  forall mrs, 0 <= shr_m mrs -> 0 <= shr_m (SpecFloat.iter_pos shr_1 p mrs).
Proof.
  induction p as [p IH | p IH |]; intros mrs H; cbn.
  - apply IH, IH, shr_1_nonneg, H.
  - apply IH, IH, H.
  - apply shr_1_nonneg, H.
Qed.

Lemma shr_record_of_loc_m m l : shr_m (shr_record_of_loc m l) = m.
Proof. destruct l as [| []]; reflexivity. Qed.

Lemma shr_fexp_nonneg m e l :
  0 <= m -> 0 <= shr_m (fst (shr_fexp prec emax m e l)).
Proof.
  intros H. unfold shr_fexp, shr.
  destruct (fexp prec emax (Zdigits2 m + e) - e); cbn [fst].
  - now rewrite shr_record_of_loc_m.
  - apply iter_shr_1_nonneg. now rewrite shr_record_of_loc_m.
  - now rewrite shr_record_of_loc_m.
Qed.

Lemma round_nearest_even_nonneg m l : 0 <= m -> 0 <= round_nearest_even m l.
Proof.
  intros H. destruct l as [| []]; cbn; try lia. destruct (Z.even m); lia.
Qed.

Lemma binary_round_aux_nonneg m e l :
  0 <= m -> sf_nonneg (binary_round_aux prec emax false m e l) = true.
Proof.
  intros H. unfold binary_round_aux.
  pose proof (shr_fexp_nonneg m e l H) as H1.
  destruct (shr_fexp prec emax m e l) as [mrs' e']. cbn [fst] in H1.
  pose proof (shr_fexp_nonneg _ e' loc_Exact
                (round_nearest_even_nonneg _ (loc_of_shr_record mrs') H1)) as H2.
  destruct (shr_fexp prec emax _ e' loc_Exact) as [mrs'' e'']. cbn [fst] in H2.
  destruct (shr_m mrs'') as [| p | p]; [reflexivity | | lia].
  destruct (e'' <=? emax - prec); reflexivity.
Qed.

Lemma binary_normalize_nonneg m e :
  0 <= m -> sf_nonneg (binary_normalize prec emax m e false) = true.
Proof.
  intros H. destruct m as [| p | p]; [reflexivity | | lia].
  cbn [binary_normalize]. unfold binary_round.
  destruct (shl_align p e _) as [mz ez].
  apply binary_round_aux_nonneg. lia.
Qed.

Lemma sf_nonneg_leb x : sf_nonneg x = true -> SFleb (S754_zero false) x = true.
Proof.
  destruct x as [s | s | | s m e]; cbn; try discriminate; try reflexivity;
    destruct s; cbn; congruence.
Qed.

Lemma canonical_digits m e :
  canonical_mantissa prec emax m e = true ->
  Z.pos (digits2_pos m) <= prec /\ (SpecFloat.emin prec emax <= e) /\
  (SpecFloat.emin prec emax < e -> Z.pos (digits2_pos m) = prec).
Proof.
  unfold canonical_mantissa, fexp. intros H. apply Z.eqb_eq in H. lia.
Qed.

Lemma SFsub_nonneg x y :
  valid_binary x = true -> valid_binary y = true ->
  SFleb (S754_zero false) y = true -> SFleb y x = true ->
  (forall s, x <> S754_infinity s) ->
  sf_nonneg (SFsub prec emax x y) = true.
Proof.
  intros Hx Hy H0 Hle Hfin.
  destruct x as [sx | sx | | sx mx ex]; [ | now destruct (Hfin sx) | destruct y; discriminate | ].
  - (* x zero *)
    destruct y as [sy | sy | | sy my ey]; try discriminate.
    + destruct sx, sy; reflexivity.
    + destruct sy; cbn in *; discriminate.
    + destruct sy; cbn in *; discriminate.
  - destruct y as [sy | sy | | sy my ey]; try discriminate.
    + (* y zero *) destruct sx; cbn in *; [discriminate | reflexivity].
    + destruct sy; cbn in *; discriminate.
    + destruct sy; [cbn in H0; discriminate |].
      destruct sx; [cbn in Hle; discriminate |].
      cbn [SFsub]. apply binary_normalize_nonneg.
      cbn [cond_Zopp].
      cbn in Hx, Hy. unfold bounded in Hx, Hy.
      apply andb_prop in Hx as [Hx _]. apply andb_prop in Hy as [Hy _].
      apply canonical_digits in Hx as (Hdx & Hex & Hnx).
      apply canonical_digits in Hy as (Hdy & Hey & Hny).
      unfold SFleb, SFcompare in Hle.
      destruct (Z.compare_spec ey ex) as [E | E | E]; [ | | discriminate].
      * subst ey. rewrite Z.min_id. unfold shl_align. rewrite Z.sub_diag. cbn [fst].
        assert (Pos.compare my mx <> Gt) as Hc.
        { unfold Pos.compare. destruct (Pos.compare_cont Eq my mx); congruence. }
        change (my <= mx)%positive in Hc. lia.
      * rewrite Z.min_r by lia. unfold shl_align. rewrite Z.sub_diag. cbn [fst].
        destruct (ey - ex) as [| d | d] eqn:Ed; try lia. cbn [fst].
        pose proof (iter_xO_double mx d).
        pose proof (digits2_pos_bounds mx) as Bx.
        pose proof (digits2_pos_bounds my) as By.
        assert (0 < prec) as Hprec by reflexivity.
        rewrite Hnx in Bx by lia.
        assert (2 ^ Z.pos (digits2_pos my) <= 2 ^ prec) by (apply Z.pow_le_mono_r; lia).
        replace prec with (Z.succ (prec - 1)) in H1 by lia.
        rewrite Z.pow_succ_r in H1 by lia. lia.
Qed.
End SpecFloatFacts.

Section SpecFloatOrder.
Local Open Scope Z_scope.

Lemma SFcompare_antisym (a b : spec_float) :
  SFcompare b a = option_map CompOpp (SFcompare a b).
Proof.
  destruct a as [sa | sa | | sa ma ea], b as [sb | sb | | sb mb eb];
    try reflexivity;
    try (destruct sa; reflexivity);
    try (destruct sb; reflexivity);
    try (destruct sa, sb; reflexivity).
  unfold SFcompare.
  rewrite (Z.compare_antisym ea eb).
  pose proof (Pos.compare_cont_antisym ma mb Eq) as Hm. cbn [CompOpp] in Hm.
  rewrite <- Hm.
  destruct sa, sb; cbn; try reflexivity;
    destruct (ea ?= eb); cbn; try reflexivity;
    destruct (Pos.compare_cont Eq ma mb); reflexivity.
Qed.

Lemma SFleb_total (a b : spec_float) :
  a <> S754_nan -> b <> S754_nan -> SFleb a b = true \/ SFleb b a = true.
Proof.
  intros Ha Hb. unfold SFleb. rewrite (SFcompare_antisym a b).
  destruct (SFcompare a b) as [[] |] eqn:E; cbn; auto.
  destruct a, b; try congruence; cbn in E; try discriminate;
    repeat match goal with s : bool |- _ => destruct s end; discriminate.
Qed.

Lemma SFleb_ltb (a b : spec_float) : SFleb a b = true -> SFltb b a = false.
Proof.
  unfold SFleb, SFltb. rewrite (SFcompare_antisym a b).
  destruct (SFcompare a b) as [[] |]; cbn; congruence.
Qed.

(** The order of the finite positive floats is that of (exponent, mantissa). *)
Lemma SFleb_trans (a b c : spec_float) :
  SFleb a b = true -> SFleb b c = true -> SFleb a c = true.
Proof.
  unfold SFleb.
  destruct a as [sa | sa | | sa ma ea], b as [sb | sb | | sb mb eb],
           c as [sc | sc | | sc mc ec];
    cbn; try discriminate; try reflexivity;
    repeat match goal with s : bool |- _ => destruct s end;
    cbn; try discriminate; try reflexivity;
    change (Pos.compare_cont Eq) with Pos.compare;
    destruct (Z.compare_spec ea eb), (Z.compare_spec eb ec),
             (Z.compare_spec ea ec);
    try discriminate; try reflexivity; try lia; subst;
    destruct (Pos.compare_spec ma mb), (Pos.compare_spec mb mc),
             (Pos.compare_spec ma mc);
    cbn; try discriminate; try reflexivity; try lia.
Qed.
End SpecFloatOrder.

Section PrimFloatFacts.
Local Open Scope float_scope.

Lemma is_nan_spec (x : float) : is_nan x = false -> Prim2SF x <> S754_nan.
Proof.
  unfold is_nan. rewrite FloatAxioms.eqb_spec. intros H E. rewrite E in H. discriminate.
Qed.

Lemma is_finite_not_infinity (x : float) :
  is_finite x = true -> forall s, Prim2SF x <> S754_infinity s.
Proof.
  unfold is_finite, is_infinity. rewrite FloatAxioms.eqb_spec, FloatAxioms.abs_spec. intros H s E.
  rewrite E in H. cbn in H. rewrite orb_true_r in H. discriminate.
Qed.

Lemma leb_total (x y : float) :
  is_nan x = false -> is_nan y = false ->
  (x <=? y) = true \/ (y <=? x) = true.
Proof.
  intros Hx Hy. rewrite !FloatAxioms.leb_spec.
  apply SFleb_total; now apply is_nan_spec.
Qed.

Lemma leb_trans (x y z : float) :
  (x <=? y) = true -> (y <=? z) = true -> (x <=? z) = true.
Proof. rewrite !FloatAxioms.leb_spec. apply SFleb_trans. Qed.

Lemma leb_not_ltb (x y : float) : (x <=? y) = true -> (y <? x) = false.
Proof. rewrite FloatAxioms.leb_spec, FloatAxioms.ltb_spec. apply SFleb_ltb. Qed.

(** A float between 0 and a float that is not infinite is not infinite. *)
Lemma between_not_infinity (x y : float) :
  (forall s, Prim2SF x <> S754_infinity s) ->
  (0 <=? y) = true -> (y <=? x) = true ->
  forall s, Prim2SF y <> S754_infinity s.
Proof.
  rewrite !FloatAxioms.leb_spec. change (Prim2SF 0) with (S754_zero false).
  intros Hx H0 Hle s E. rewrite E in *.
  destruct s; [discriminate |].
  destruct (Prim2SF x) as [sx | sx | | sx mx ex]; try discriminate.
  now apply (Hx sx).
Qed.

Lemma sub_nonneg (x y : float) :
  (forall s, Prim2SF x <> S754_infinity s) ->
  (0 <=? y) = true -> (y <=? x) = true ->
  (0 <=? x - y) = true.
Proof.
  intros Hfin H0 Hle. rewrite FloatAxioms.leb_spec in *. rewrite FloatAxioms.sub_spec.
  change (Prim2SF 0) with (S754_zero false) in *.
  apply sf_nonneg_leb, SFsub_nonneg; auto using Prim2SF_valid.
Qed.

Lemma eqb_not_ltb (x y : float) : (x =? y) = true -> (y <? x) = false.
Proof.
  rewrite FloatAxioms.eqb_spec, FloatAxioms.ltb_spec. unfold SFeqb, SFltb.
  rewrite (SFcompare_antisym (Prim2SF x) (Prim2SF y)).
  destruct (SFcompare (Prim2SF x) (Prim2SF y)) as [[] |]; cbn; congruence.
Qed.
End PrimFloatFacts.

(** * The cached store: basic facts *)

Section StoreFacts.

Lemma load_disk (k : ledger) (s : session) : disk (snd (load k s)) = disk s.
Proof.
  destruct k; cbn; unfold load_data_leche, load_data_gasolina, load_data_ganado;
    match goal with |- context [match ?c with _ => _ end] => destruct c end;
    reflexivity.
Qed.

Lemma carga_inicial_disk (s : session) : disk (snd (carga_inicial s)) = disk s.
Proof.
  unfold carga_inicial.
  pose proof (load_disk Leche s) as H1. cbn in H1.
  destruct (load_data_leche s) as [l s1]. cbn in H1.
  pose proof (load_disk Gasolina s1) as H2. cbn in H2.
  destruct (load_data_gasolina s1) as [g s2]. cbn in H2.
  pose proof (load_disk Ganado s2) as H3. cbn in H3.
  destruct (load_data_ganado s2) as [a s3]. cbn in H3 |- *.
  congruence.
Qed.

Lemma clear_cache_disk (filename : string) (s : session) :
  disk (clear_cache filename s) = disk s.
Proof.
  unfold clear_cache.
  repeat match goal with |- context [if ?b then _ else _] => destruct b end;
    reflexivity.
Qed.

(** After a save the file holds the rendering of the saved frame. *)
Lemma save_data_and_rerun_disk (df : DataFrame) (filename : string)
    (s : session) :
  disk (save_data_and_rerun df filename s) = <[filename := to_csv df]> (disk s).
Proof.
  unfold save_data_and_rerun, experimental_rerun.
  now rewrite carga_inicial_disk, clear_cache_disk.
Qed.

End StoreFacts.

(** * Module 1: the milk form *)

Section Leche.
Local Open Scope float_scope.

(** C3: the form refuses the input whenever the weighed volume exceeds the
    delivered one or the sold volume exceeds the weighed one: an error is
    shown, no row is built and the session (files and caches) is left as it
    was.  The witness is the input (delivered 10, weighed 12, sold 5). *)
Theorem registro_leche_rejects (fecha_registro : Z) (id_lote : string)
    (vol_entregado vol_pesado vol_vendido : float)
    (fr : frames) (s : session) :
  (vol_entregado <? vol_pesado) = true \/ (vol_pesado <? vol_vendido) = true ->
  exists msg,
    registro_leche fecha_registro id_lote vol_entregado vol_pesado vol_vendido
                   fr s = (st_error msg, s).
Proof.
  intros H. unfold registro_leche.
  assert ((vol_entregado <? vol_pesado) || (vol_pesado <? vol_vendido) = true)
    as -> by (apply orb_true_iff; exact H).
  eexists. reflexivity.
Qed.

Lemma registro_leche_rejects_10_12_5 :
  exists msg,
    registro_leche 0 "L1" 10 12 5 frames_0 session_0 = (st_error msg, session_0).
Proof.
  apply (registro_leche_rejects 0 "L1" 10 12 5 frames_0 session_0).
  left. vm_compute. reflexivity.
Defined.

(** C2 as stated fails on the floats of the code: for delivered 10, weighed
    0.3 and sold 0.1 the form accepts the lot, and the two partial losses do
    not add up to the total loss. *)
Lemma perdidas_no_suman_exacto :
  (0 <=? 0.1) = true /\ (0.1 <=? 0.3) = true /\ (0.3 <=? 10) = true /\
  fst (registro_leche 0 "L1" 10 0.3 0.1 frames_0 session_0) = rerun /\
  Perdida_Pesaje (new_row_leche 0 "L1" 10 0.3 0.1) = Num (perdida_pesaje 10 0.3) /\
  Perdida_Venta (new_row_leche 0 "L1" 10 0.3 0.1) = Num (perdida_venta 0.3 0.1) /\
  Perdida_Total (new_row_leche 0 "L1" 10 0.3 0.1) = Num (perdida_total 10 0.1) /\
  (perdida_pesaje 10 0.3 + perdida_venta 0.3 0.1 =? perdida_total 10 0.1) = false.
Proof. vm_compute. repeat split; reflexivity. Qed.

(** C2, amended: for finite volumes with delivered >= weighed >= sold >= 0
    and a lot identifier, the form appends and saves the row whose three
    losses are the binary64 differences delivered - weighed, weighed - sold
    and delivered - sold, and each of the three is >= 0. *)
Theorem registro_leche_perdidas (fecha_registro : Z) (id_lote : string)
    (vol_entregado vol_pesado vol_vendido : float)
    (fr : frames) (s : session) :
  id_lote <> "" ->
  is_finite vol_entregado = true ->
  (0 <=? vol_vendido) = true ->
  (vol_vendido <=? vol_pesado) = true ->
  (vol_pesado <=? vol_entregado) = true ->
  let new_row :=
    new_row_leche fecha_registro id_lote vol_entregado vol_pesado vol_vendido in
  let df_leche_nuevo := concat_ignore_index (df_leche fr) new_row in
  let s' :=
    snd (registro_leche fecha_registro id_lote
                        vol_entregado vol_pesado vol_vendido fr s) in
  fst (registro_leche fecha_registro id_lote
                      vol_entregado vol_pesado vol_vendido fr s) = rerun /\
  disk s' = <[DATA_FILE_LECHE := to_csv df_leche_nuevo]> (disk s) /\
  Perdida_Pesaje new_row = Num (vol_entregado - vol_pesado) /\
  Perdida_Venta new_row = Num (vol_pesado - vol_vendido) /\
  Perdida_Total new_row = Num (vol_entregado - vol_vendido) /\
  (0 <=? vol_entregado - vol_pesado) = true /\
  (0 <=? vol_pesado - vol_vendido) = true /\
  (0 <=? vol_entregado - vol_vendido) = true.
Proof.
  intros Hid Hfin H0 Hvp Hpe new_row df_leche_nuevo s'.
  assert ((0 <=? vol_pesado) = true) as H0p by (eapply leb_trans; eauto).
  assert ((vol_vendido <=? vol_entregado) = true) as Hve
    by (eapply leb_trans; eauto).
  pose proof (is_finite_not_infinity _ Hfin) as He.
  pose proof (between_not_infinity _ _ He H0p Hpe) as Hp.
  subst s'. unfold registro_leche.
  rewrite (leb_not_ltb _ _ Hpe), (leb_not_ltb _ _ Hvp). cbn [orb].
  destruct (String.eqb_spec id_lote "") as [E | _]; [contradiction |].
  cbn [fst snd]. rewrite save_data_and_rerun_disk.
  repeat split; auto using sub_nonneg.
Qed.

Lemma registro_leche_perdidas_10_03_01 :
  let new_row := new_row_leche 0 "L1" 10 0.3 0.1 in
  let s' := snd (registro_leche 0 "L1" 10 0.3 0.1 frames_0 session_0) in
  fst (registro_leche 0 "L1" 10 0.3 0.1 frames_0 session_0) = rerun /\
  disk s' = <[DATA_FILE_LECHE :=
                to_csv (concat_ignore_index (df_leche frames_0) new_row)]>
              (disk session_0) /\
  Perdida_Pesaje new_row = Num (10 - 0.3) /\
  Perdida_Venta new_row = Num (0.3 - 0.1) /\
  Perdida_Total new_row = Num (10 - 0.1) /\
  (0 <=? 10 - 0.3) = true /\
  (0 <=? 0.3 - 0.1) = true /\
  (0 <=? 10 - 0.1) = true.
Proof.
  apply (registro_leche_perdidas 0 "L1" 10 0.3 0.1 frames_0 session_0).
  - discriminate.
  - vm_compute. reflexivity.
  - vm_compute. reflexivity.
  - vm_compute. reflexivity.
  - vm_compute. reflexivity.
Defined.

End Leche.

(** * Module 3: the fuel form *)

Section Gasolina.
Local Open Scope float_scope.

(** C4: with a route identifier, the form refuses the input exactly when
    liters are positive and kilometers zero, or kilometers positive and liters
    zero; a refused input leaves the session as it was, any other input is
    saved.  The witness covers (liters 0, km 50), (liters 20, km 0) and
    (liters 0, km 0). *)
Theorem registro_gasolina_rejects_iff (fecha_gasolina : Z) (id_ruta : string)
    (litros_cargados km_recorridos costo_litro : float)
    (fr : frames) (s : session) :
  id_ruta <> "" ->
  let r := registro_gasolina fecha_gasolina id_ruta
                             litros_cargados km_recorridos costo_litro fr s in
  let one_positive_other_zero :=
    ((0 <? litros_cargados) = true /\ (km_recorridos =? 0) = true) \/
    ((0 <? km_recorridos) = true /\ (litros_cargados =? 0) = true) in
  ((exists msg, r = (st_error msg, s)) <-> one_positive_other_zero) /\
  (fst r = rerun <-> ~ one_positive_other_zero).
Proof.
  intros Hid r P. subst r P. unfold registro_gasolina.
  destruct (String.eqb_spec id_ruta "") as [E | _]; [contradiction |].
  destruct (km_recorridos =? 0) eqn:Ek, (0 <? litros_cargados) eqn:El,
           (litros_cargados =? 0) eqn:Ez, (0 <? km_recorridos) eqn:Em;
    cbn [andb fst];
    (split; split;
     [ intros [msg H]; try discriminate H; auto
     | intros H; try (eexists; reflexivity);
       destruct H as [[? ?] | [? ?]]; discriminate
     | intros H; try discriminate H; intros [[? ?] | [? ?]]; discriminate
     | intros H; try reflexivity; exfalso; apply H; auto ]).
Qed.

Lemma registro_gasolina_rejects_examples :
  (exists msg, registro_gasolina 0 "R1" 0 50 1 frames_0 session_0
               = (st_error msg, session_0)) /\
  (exists msg, registro_gasolina 0 "R1" 20 0 1 frames_0 session_0
               = (st_error msg, session_0)) /\
  fst (registro_gasolina 0 "R1" 0 0 1 frames_0 session_0) = rerun.
Proof.
  split; [| split].
  - apply (registro_gasolina_rejects_iff 0 "R1" 0 50 1 frames_0 session_0).
    + discriminate.
    + right. split; vm_compute; reflexivity.
  - apply (registro_gasolina_rejects_iff 0 "R1" 20 0 1 frames_0 session_0).
    + discriminate.
    + left. split; vm_compute; reflexivity.
  - apply (registro_gasolina_rejects_iff 0 "R1" 0 0 1 frames_0 session_0).
    + discriminate.
    + intros [[H _] | [H _]]; vm_compute in H; discriminate H.
Defined.

(** C5: when the form accepts the input, the row it appends and saves has
    total cost liters * cost per liter, efficiency kilometers / liters when
    liters > 0, and efficiency 0 when liters = 0. *)
Theorem registro_gasolina_derivados (fecha_gasolina : Z) (id_ruta : string)
    (litros_cargados km_recorridos costo_litro : float)
    (fr : frames) (s s' : session) :
  registro_gasolina fecha_gasolina id_ruta
                    litros_cargados km_recorridos costo_litro fr s
  = (rerun, s') ->
  let new_row :=
    new_row_gasolina fecha_gasolina id_ruta
                     litros_cargados costo_litro km_recorridos in
  let df_gasolina_nuevo := concat_ignore_index (df_gasolina fr) new_row in
  s' = save_data_and_rerun df_gasolina_nuevo DATA_FILE_GASOLINA s /\
  disk s' = <[DATA_FILE_GASOLINA := to_csv df_gasolina_nuevo]> (disk s) /\
  Litros_Cargados new_row = Num litros_cargados /\
  Costo_Litro new_row = Num costo_litro /\
  Km_Recorridos new_row = Num km_recorridos /\
  Gasto_Total new_row = Num (litros_cargados * costo_litro) /\
  ((0 <? litros_cargados) = true ->
   Eficiencia_Km_Litro new_row = Num (km_recorridos / litros_cargados)) /\
  ((litros_cargados =? 0) = true -> Eficiencia_Km_Litro new_row = Num 0).
Proof.
  intros H new_row df_gasolina_nuevo. unfold registro_gasolina in H.
  destruct (String.eqb id_ruta ""); [discriminate H |].
  destruct ((km_recorridos =? 0) && (0 <? litros_cargados));
    [discriminate H |].
  destruct ((litros_cargados =? 0) && (0 <? km_recorridos));
    [discriminate H |].
  injection H as <-.
  split; [reflexivity |]. split; [apply save_data_and_rerun_disk |].
  repeat (split; [reflexivity |]).
  unfold Eficiencia_Km_Litro, new_row, new_row_gasolina, col, eficiencia.
  cbn [nth]. split.
  - intros ->. reflexivity.
  - intros Hz. now rewrite (eqb_not_ltb _ _ Hz).
Qed.

Lemma registro_gasolina_derivados_0_0 :
  let new_row := new_row_gasolina 0 "R1" 0 1 0 in
  let df_gasolina_nuevo := concat_ignore_index (df_gasolina frames_0) new_row in
  let s' := snd (registro_gasolina 0 "R1" 0 0 1 frames_0 session_0) in
  s' = save_data_and_rerun df_gasolina_nuevo DATA_FILE_GASOLINA session_0 /\
  disk s' = <[DATA_FILE_GASOLINA := to_csv df_gasolina_nuevo]> (disk session_0) /\
  Litros_Cargados new_row = Num 0 /\
  Costo_Litro new_row = Num 1 /\
  Km_Recorridos new_row = Num 0 /\
  Gasto_Total new_row = Num (0 * 1) /\
  ((0 <? 0) = true -> Eficiencia_Km_Litro new_row = Num (0 / 0)) /\
  ((0 =? 0) = true -> Eficiencia_Km_Litro new_row = Num 0).
Proof.
  apply (registro_gasolina_derivados 0 "R1" 0 0 1 frames_0 session_0).
  vm_compute. reflexivity.
Defined.

End Gasolina.

(** * Module 2: the breed offered and recorded by the livestock form *)

Section Raza.


Lemma list_index_nth (x : string) (l : list string) (i : nat) :
  list_index x l = Some i -> nth i l "" = x /\ i < length l.
Proof.
  revert i. induction l as [| y l IH]; intros i; cbn; [discriminate |].
  destruct (String.eqb_spec x y) as [-> | Hne].
  - intros [= <-]. split; [reflexivity | lia].
  - destruct (list_index x l) as [j |]; [| discriminate].
    intros [= <-]. destruct (IH j eq_refl). split; [assumption | lia].
Qed.

Lemma raza_index_lt (c : cell) : raza_index c < length raza_options.
Proof.
  unfold raza_index. destruct c as [| s | x | d]; try (cbn; lia).
  destruct (list_index s raza_options) as [i |] eqn:E; [| cbn; lia].
  now apply list_index_nth in E.
Qed.

Lemma selectbox_In (options : list string) (index : nat) (picked : option nat) :
  index < length options -> In (selectbox options index picked) options.
Proof.
  intros H. unfold selectbox. destruct picked as [i |].
  - destruct (Nat.ltb_spec i (length options)); now apply nth_In.
  - now apply nth_In.
Qed.




End Raza.

(** * The cached store: persisting and loading *)

Section Store.

Lemma data_file_inj (k k' : ledger) : data_file k = data_file k' -> k = k'.
Proof. destruct k, k'; intros H; try reflexivity; discriminate H. Qed.

Lemma load_spec (k : ledger) (s : session) :
  fst (load k s) = default (on_disk k s) (cache_of k s) /\
  cache_of k (snd (load k s)) = Some (fst (load k s)) /\
  (forall k', k' <> k -> cache_of k' (snd (load k s)) = cache_of k' s).
Proof.
  destruct s as [d cl cg ca].
  destruct k; cbn; unfold load_data_leche, load_data_gasolina, load_data_ganado;
    cbn;
    match goal with |- context [match ?c with _ => _ end] => destruct c end;
    cbn; (split; [reflexivity |]; split; [reflexivity |]);
    intros k' Hk'; destruct k'; try reflexivity; contradiction.
Qed.

Lemma load_keeps (k k' : ledger) (s : session) (df : DataFrame) :
  cache_of k s = Some df -> cache_of k (snd (load k' s)) = Some df.
Proof.
  intros H. destruct (load_spec k' s) as (Hf & Hc & Ho).
  destruct k, k'; try (rewrite Ho; [exact H | discriminate]);
    rewrite Hc, Hf, H; reflexivity.
Qed.

Lemma carga_inicial_cache (k : ledger) (s : session) :
  cache_of k (snd (carga_inicial s)) = Some (default (on_disk k s) (cache_of k s)).
Proof.
  destruct s as [d [cl |] [cg |] [ca |]]; destruct k; reflexivity.
Qed.

Lemma clear_cache_same (k : ledger) (s : session) :
  cache_of k (clear_cache (data_file k) s) = None.
Proof. destruct s, k; reflexivity. Qed.

Lemma clear_cache_other (k k' : ledger) (s : session) :
  k <> k' -> cache_of k (clear_cache (data_file k') s) = cache_of k s.
Proof. destruct s, k, k'; intros H; try reflexivity; contradiction. Qed.

Lemma persist_disk (k : ledger) (df : DataFrame) (s : session) :
  disk (persist k df s) = <[data_file k := to_csv df]> (disk s).
Proof. apply save_data_and_rerun_disk. Qed.

Lemma persist_cache_same (k : ledger) (df : DataFrame) (s : session) :
  cache_of k (persist k df s) = Some (read_csv (to_csv df)).
Proof.
  unfold persist, save_data_and_rerun, experimental_rerun.
  rewrite carga_inicial_cache, clear_cache_same. cbn [default].
  unfold on_disk, read_or_empty. rewrite clear_cache_disk. cbn [write_file disk].
  now rewrite lookup_insert_eq.
Qed.

Lemma persist_cache_other (k k' : ledger) (df X : DataFrame) (s : session) :
  k <> k' -> cache_of k s = Some X -> cache_of k (persist k' df s) = Some X.
Proof.
  intros Hk H. unfold persist, save_data_and_rerun, experimental_rerun.
  rewrite carga_inicial_cache, clear_cache_other by assumption.
  destruct s; destruct k; cbn in *; now rewrite H.
Qed.


(** Operations that do not save ledger [k] leave its cache entry and its
    file as they are. *)
Lemma run_keeps (k : ledger) (X : DataFrame) (f : csv) (ops : list op) :
  (forall df', ~ In (Persist k df') ops) ->
  forall s, cache_of k s = Some X -> disk s !! data_file k = Some f ->
  cache_of k (run ops s) = Some X /\ disk (run ops s) !! data_file k = Some f.
Proof.
  induction ops as [| o ops IH]; intros Hno s Hc Hd; [now split |].
  cbn [run fold_left]. apply IH.
  - intros df' Hin. apply (Hno df'). now right.
  - destruct o as [k' | k' df']; cbn [step].
    + now apply load_keeps.
    + apply persist_cache_other; [| assumption].
      intros ->. apply (Hno df'). now left.
  - destruct o as [k' | k' df']; cbn [step].
    + now rewrite load_disk.
    + rewrite persist_disk, lookup_insert_ne; [assumption |].
      intros E. apply data_file_inj in E. subst k'. apply (Hno df'). now left.
Qed.

(** A loader that reads the disk returns a frame with a range index. *)
Lemma on_disk_range_index (k : ledger) (s : session) :
  index (on_disk k s) = seq 0 (length (rows (on_disk k s))).
Proof.
  unfold on_disk, read_or_empty.
  destruct (disk s !! data_file k) as [f |]; [| reflexivity].
  unfold index, read_csv. cbn [rows]. unfold range_index.
  generalize (List.map (List.map read_cell) (records f)). intros rs.
  generalize 0.
  induction rs as [| r rs IH]; intros a; cbn; [reflexivity | now rewrite IH].
Qed.

Lemma combine_fst_snd {A B : Type} (l : list (A * B)) :
  combine (List.map fst l) (List.map snd l) = l.
Proof.
  induction l as [| [a b] l IH]; cbn; [reflexivity | now rewrite IH].
Qed.

Lemma range_index_values (df : DataFrame) :
  index df = seq 0 (length (rows df)) -> range_index (values df) = rows df.
Proof.
  intros H. unfold range_index, values in *. rewrite length_map, <- H.
  apply combine_fst_snd.
Qed.

Lemma range_index_fst (rs : list row) :
  List.map fst (range_index rs) = seq 0 (length rs).
Proof.
  unfold range_index. generalize 0.
  induction rs as [| r rs IH]; intros a; cbn; [reflexivity | now rewrite IH].
Qed.

Lemma range_index_snd (rs : list row) : List.map snd (range_index rs) = rs.
Proof.
  unfold range_index. generalize 0.
  induction rs as [| r rs IH]; intros a; cbn; [reflexivity | now rewrite IH].
Qed.

(** A cell read back from what was written for it: itself, or a missing
    value when it does not keep its value. *)
Lemma reread_cell (c : cell) :
  read_cell (write_cell c) = if keeps_value c then c else NA.
Proof.
  destruct c as [| s | x | d]; unfold write_cell, keeps_value; try reflexivity.
  - unfold read_cell. now destruct (is_na_text s).
  - destruct (PrimFloat.is_nan x) eqn:E; reflexivity.
Qed.

(** What a file gives back: the columns, a fresh index, and every cell read
    from what was written for it. *)
Lemma read_csv_to_csv (df : DataFrame) :
  read_csv (to_csv df) =
  {| columns := columns df;
     rows := range_index
               (List.map (List.map (fun c => read_cell (write_cell c)))
                         (values df)) |}.
Proof.
  unfold read_csv, to_csv. cbn [header records]. f_equal. f_equal.
  rewrite List.map_map. apply List.map_ext. intros r. apply List.map_map.
Qed.

End Store.

Section PersistLoad.




(** C8: once a frame is saved for a ledger, a load of that ledger returns
    what the file now holds, whatever the caches held before the save (a
    frame loaded and cached earlier included) and whatever loads, and saves of
    the other ledgers, come in between: the save drops the cache entry of the
    ledger, so that the next load reads the file again. *)
Theorem load_after_persist (k : ledger) (df : DataFrame) (s : session)
    (ops : list op) :
  (forall df', ~ In (Persist k df') ops) ->
  cache_of k (clear_cache (data_file k) (write_file df (data_file k) s)) = None /\
  disk (run ops (persist k df s)) !! data_file k = Some (to_csv df) /\
  fst (load k (run ops (persist k df s))) = read_csv (to_csv df).
Proof.
  intros Hno. split; [apply clear_cache_same |].
  destruct (run_keeps k (read_csv (to_csv df)) (to_csv df) ops Hno
              (persist k df s)) as [Hc Hd].
  - apply persist_cache_same.
  - rewrite persist_disk. apply lookup_insert_eq.
  - split; [exact Hd |].
    destruct (load_spec k (run ops (persist k df s))) as (-> & _).
    now rewrite Hc.
Qed.

Lemma load_after_persist_stale_cache :
  let s := snd (load Ganado (persist Ganado df_brahman session_0)) in
  let ops := [Load Ganado; Persist Leche df_brahman; Load Leche; Load Ganado] in
  fst (load Ganado s) = df_brahman /\
  (cache_of Ganado
     (clear_cache (data_file Ganado)
                  (write_file df_dos_pesajes (data_file Ganado) s)) = None /\
   disk (run ops (persist Ganado df_dos_pesajes s)) !! data_file Ganado
   = Some (to_csv df_dos_pesajes) /\
   fst (load Ganado (run ops (persist Ganado df_dos_pesajes s)))
   = read_csv (to_csv df_dos_pesajes)).
Proof.
  intros s ops. split; [reflexivity |].
  apply (load_after_persist Ganado df_dos_pesajes s ops).
  intros df' [H | [H | [H | [H | []]]]]; discriminate H.
Defined.

End PersistLoad.

(** * Deleting records *)

Section Borrado.

Lemma selected_In (ps : list nat) (i : nat) : selected ps i = true <-> In i ps.
Proof.
  unfold selected. rewrite existsb_exists. split.
  - intros (x & Hx & E). apply Nat.eqb_eq in E. now subst.
  - intros H. exists i. split; [assumption | apply Nat.eqb_refl].
Qed.

(** Rows kept by a filter on the labels of a range-labelled list: where each
    kept row lands. *)
Lemma filter_range_lookup (P : nat -> bool) (rs : list row) :
  forall (a i : nat) (r : row),
    rs !! i = Some r -> P (a + i) = true ->
    List.map snd
      (List.filter (fun lr => P (fst lr)) (combine (seq a (length rs)) rs))
    !! length (List.filter P (seq a i)) = Some r.
Proof.
  induction rs as [| r0 rs IH]; intros a i r Hi HP; [discriminate Hi |].
  cbn [length seq combine List.filter fst].
  destruct i as [| i].
  - cbn in Hi. injection Hi as ->. rewrite Nat.add_0_r in HP. rewrite HP.
    reflexivity.
  - cbn in Hi. cbn [seq List.filter].
    replace (a + S i) with (S a + i) in HP by lia.
    destruct (P a); cbn [List.map length]; [cbn [lookup] |]; now apply IH.
Qed.

Lemma filter_range_lookup_inv (P : nat -> bool) (rs : list row) :
  forall (a j : nat) (r : row),
    List.map snd
      (List.filter (fun lr => P (fst lr)) (combine (seq a (length rs)) rs))
    !! j = Some r ->
    exists i, P (a + i) = true /\ rs !! i = Some r /\
              j = length (List.filter P (seq a i)).
Proof.
  induction rs as [| r0 rs IH]; intros a j r Hj; [discriminate Hj |].
  cbn [length seq combine List.filter fst] in Hj.
  destruct (P a) eqn:HPa.
  - destruct j as [| j].
    + cbn in Hj. injection Hj as ->. exists 0.
      rewrite Nat.add_0_r. now repeat split.
    + cbn in Hj. apply IH in Hj as (i & HP & Hi & ->).
      exists (S i). replace (a + S i) with (S a + i) by lia.
      repeat split; [assumption | assumption |].
      cbn [seq List.filter]. now rewrite HPa.
  - apply IH in Hj as (i & HP & Hi & ->).
    exists (S i). replace (a + S i) with (S a + i) by lia.
    repeat split; [assumption | assumption |].
    cbn [seq List.filter]. now rewrite HPa.
Qed.

(** On a frame with a range index the labels handed to [drop] are the
    selected positions. *)
Lemma indices_to_delete_range (rs : list row) (ps : list nat) :
  forall a,
    List.map fst
      (List.filter (fun d => selected ps (ID_Fila d))
         (combine (seq a (length rs)) (combine (seq a (length rs)) rs)))
    = List.filter (selected ps) (seq a (length rs)).
Proof.
  induction rs as [| r rs IH]; intros a; [reflexivity |].
  cbn [length seq combine List.filter]. unfold ID_Fila at 1. cbn [fst snd].
  destruct (selected ps a); cbn [List.map fst]; now rewrite IH.
Qed.

Lemma rows_range (df : DataFrame) :
  index df = seq 0 (length (rows df)) ->
  rows df = combine (seq 0 (length (values df))) (values df).
Proof.
  intros H. symmetry. now apply range_index_values.
Qed.

Lemma drop_range (df : DataFrame) (ps : list nat) :
  index df = seq 0 (length (rows df)) ->
  df_nuevo df ps =
  Some {| columns := columns df;
          rows := range_index
                    (List.map snd
                       (List.filter (fun lr => negb (selected ps (fst lr)))
                          (combine (seq 0 (length (values df))) (values df)))) |}.
Proof.
  intros Hidx. unfold df_nuevo, drop.
  assert (indices_to_delete df ps
          = List.filter (selected ps) (seq 0 (length (values df)))) as Hind.
  { unfold indices_to_delete, df_display. rewrite (rows_range df Hidx) at 2.
    unfold values at 1. rewrite length_map.
    replace (length (rows df)) with (length (values df))
      by (unfold values; apply length_map).
    apply indices_to_delete_range. }
  rewrite Hind.
  assert (forallb (fun l => existsb (Nat.eqb l) (index df))
                  (List.filter (selected ps) (seq 0 (length (values df))))
          = true) as ->.
  { apply forallb_forall. intros l Hl. apply filter_In in Hl as [Hl _].
    apply existsb_exists. exists l. split; [| apply Nat.eqb_refl].
    rewrite Hidx. unfold values in Hl. now rewrite length_map in Hl. }
  cbn [option_map]. unfold reset_index_drop. cbn [columns]. f_equal. f_equal.
  f_equal. unfold values at 1. cbn [rows]. f_equal.
  rewrite (rows_range df Hidx) at 1.
  apply filter_ext_in. intros [l r] Hin. cbn [fst]. f_equal.
  apply in_combine_l in Hin.
  apply eq_true_iff_eq. change (existsb (Nat.eqb l)
    (List.filter (selected ps) (seq 0 (length (values df))))) with
    (selected (List.filter (selected ps) (seq 0 (length (values df)))) l).
  rewrite !selected_In, filter_In, selected_In. tauto.
Qed.

End Borrado.

Section BorradoTeoremas.

Lemma filter_range_length (P : nat -> bool) (rs : list row) :
  forall a,
    length (List.filter (fun lr : nat * row => P (fst lr))
                        (combine (seq a (length rs)) rs))
    = length (List.filter P (seq a (length rs))).
Proof.
  induction rs as [| r rs IH]; intros a; [reflexivity |].
  cbn [length seq combine List.filter fst].
  destruct (P a); cbn [length]; now rewrite IH.
Qed.

Lemma range_index_length (rs : list row) : length (range_index rs) = length rs.
Proof.
  unfold range_index. rewrite length_combine, length_seq. lia.
Qed.

Lemma negb_selected (ps : list nat) (i : nat) :
  negb (selected ps i) = true <-> ~ In i ps.
Proof.
  rewrite negb_true_iff, <- not_true_iff_false. now rewrite selected_In.
Qed.

(** C9: on a frame as it is loaded (labels 0, 1, 2, ...), deleting a
    selection of positions that is not empty and is taken from the positions
    offered gives, and saves, the frame that holds exactly the rows whose
    position was not selected, relabelled 0, 1, 2, ...: the row at a position
    [i] that was not selected is found at the position that counts the
    surviving rows before [i], and there is no other row.  The witness is the
    deletion of position 1 in a frame of three rows. *)
Theorem df_nuevo_positions (df : DataFrame) (rows_to_delete : list nat)
    (no_data filename : string) (s : session) :
  index df = seq 0 (length (rows df)) ->
  rows_to_delete <> [] ->
  Forall (fun p => In p (multiselect_options df)) rows_to_delete ->
  exists d,
    df_nuevo df rows_to_delete = Some d /\
    eliminar_registros no_data rows_to_delete df filename s
    = (rerun, save_data_and_rerun d filename s) /\
    columns d = columns df /\
    index d = seq 0 (length (rows d)) /\
    length (rows d) = new_position rows_to_delete (length (rows df)) /\
    (forall i r, values df !! i = Some r -> ~ In i rows_to_delete ->
                 values d !! new_position rows_to_delete i = Some r) /\
    (forall j r, values d !! j = Some r ->
                 exists i, ~ In i rows_to_delete /\ values df !! i = Some r /\
                           j = new_position rows_to_delete i).
Proof.
  intros Hidx Hne Hvalid. eexists. split; [now apply drop_range |].
  set (kept := List.map snd
                 (List.filter (fun lr => negb (selected rows_to_delete (fst lr)))
                    (combine (seq 0 (length (values df))) (values df)))).
  assert (length (values df) = length (rows df)) as Hlen
    by (unfold values; apply length_map).
  split.
  { unfold eliminar_registros.
    destruct rows_to_delete as [| p ps]; [contradiction |].
    inversion Hvalid as [| ? ? Hp _]; subst.
    unfold multiselect_options, df_display in Hp.
    assert (empty df = false) as ->.
    { unfold empty. destruct (rows df); [destruct Hp | reflexivity]. }
    now rewrite drop_range. }
  split; [reflexivity |].
  split.
  { unfold index. cbn [rows]. now rewrite range_index_fst, range_index_length. }
  split.
  { cbn [rows]. rewrite range_index_length. unfold kept.
    rewrite length_map.
    rewrite (filter_range_length (fun j => negb (selected rows_to_delete j))).
    now rewrite Hlen. }
  split.
  - intros i r Hi Hout. unfold values at 1. cbn [rows].
    rewrite range_index_snd. unfold kept, new_position.
    apply (filter_range_lookup
             (fun j => negb (selected rows_to_delete j)) (values df) 0 i r Hi).
    now apply negb_selected.
  - intros j r Hj. unfold values at 1 in Hj. cbn [rows] in Hj.
    rewrite range_index_snd in Hj. unfold kept in Hj.
    apply (filter_range_lookup_inv
             (fun j => negb (selected rows_to_delete j))) in Hj
      as (i & HP & Hi & ->).
    exists i. split; [now apply negb_selected | now split].
Qed.

Lemma df_nuevo_positions_tres :
  (exists d,
    df_nuevo df_tres [1] = Some d /\
    borrar_ganado [1] {| df_leche := df_tres; df_gasolina := df_tres;
                         df_ganado := df_tres |} session_0
    = (rerun, save_data_and_rerun d DATA_FILE_GANADO session_0) /\
    columns d = columns df_tres /\
    index d = seq 0 (length (rows d)) /\
    length (rows d) = new_position [1] (length (rows df_tres)) /\
    (forall i r, values df_tres !! i = Some r -> ~ In i [1] ->
                 values d !! new_position [1] i = Some r) /\
    (forall j r, values d !! j = Some r ->
                 exists i, ~ In i [1] /\ values df_tres !! i = Some r /\
                           j = new_position [1] i)) /\
  option_map rows (df_nuevo df_tres [1])
  = Some [ (0, new_row_ganado 0 "V7" "Luna" "Holstein" 5%float);
           (1, new_row_ganado 1 "V9" "Perla" "Gyr" 10%float) ].
Proof.
  split; [| reflexivity].
  apply (df_nuevo_positions df_tres [1] "No hay datos para borrar."
                            DATA_FILE_GANADO session_0).
  - reflexivity.
  - discriminate.
  - constructor; [| constructor]. vm_compute. auto.
Defined.

Lemma lookup_map {A B : Type} (f : A -> B) (l : list A) (i : nat) :
  List.map f l !! i = option_map f (l !! i).
Proof.
  revert i. induction l as [| x l IH]; intros [| i]; cbn; auto.
Qed.

Lemma StronglySorted_map_S (keep : list nat) :
  StronglySorted lt keep -> StronglySorted lt (List.map S keep).
Proof.
  induction 1 as [| i keep _ IH Hi]; cbn; constructor; [assumption |].
  rewrite List.Forall_forall in *. intros j Hj.
  apply in_map_iff in Hj as (j' & <- & Hj'). apply Hi in Hj'. lia.
Qed.

Lemma Forall2_lookup_S {A : Type} (x : A) (l : list A) (keep : list nat)
    (ys : list A) :
  Forall2 (fun i y => l !! i = Some y) keep ys ->
  Forall2 (fun i y => (x :: l) !! i = Some y) (List.map S keep) ys.
Proof. induction 1; cbn; constructor; auto. Qed.

(** A filter reads the list at increasing positions. *)
Lemma filter_increasing {A : Type} (Q : A -> bool) (l : list A) :
  exists keep : list nat,
    StronglySorted lt keep /\
    Forall2 (fun i x => l !! i = Some x) keep (List.filter Q l).
Proof.
  induction l as [| x l (keep & Hs & Hf)]; [exists []; split; constructor |].
  cbn [List.filter]. destruct (Q x).
  - exists (0 :: List.map S keep). split.
    + constructor; [now apply StronglySorted_map_S |].
      rewrite List.Forall_forall. intros j Hj.
      apply in_map_iff in Hj as (j' & <- & _). lia.
    + constructor; [reflexivity | now apply Forall2_lookup_S].
  - exists (List.map S keep).
    split; [now apply StronglySorted_map_S | now apply Forall2_lookup_S].
Qed.

Lemma Forall2_lookup_map {A B : Type} (f : A -> B) (l : list A)
    (keep : list nat) (ys : list A) :
  Forall2 (fun i y => l !! i = Some y) keep ys ->
  Forall2 (fun i y => List.map f l !! i = Some y) keep (List.map f ys).
Proof.
  induction 1 as [| i y keep ys Hi _ IH]; cbn; constructor; [| assumption].
  now rewrite lookup_map, Hi.
Qed.

(** C10: the rows that survive a deletion keep their relative order: the
    frame obtained reads the former one at strictly increasing positions, so
    that two surviving rows stand in the order they had before. *)
Theorem df_nuevo_keeps_order (df d : DataFrame) (rows_to_delete : list nat) :
  df_nuevo df rows_to_delete = Some d ->
  (exists keep : list nat,
     StronglySorted lt keep /\
     Forall2 (fun i r => values df !! i = Some r) keep (values d)) /\
  (forall j1 j2 r1 r2,
     j1 < j2 -> values d !! j1 = Some r1 -> values d !! j2 = Some r2 ->
     exists i1 i2, i1 < i2 /\
                   values df !! i1 = Some r1 /\ values df !! i2 = Some r2).
Proof.
  intros H.
  assert (exists keep : list nat,
     StronglySorted lt keep /\
     Forall2 (fun i r => values df !! i = Some r) keep (values d))
    as (keep & Hs & Hf).
  { unfold df_nuevo, drop in H.
    destruct (forallb _ _); [| discriminate H]. cbn in H. injection H as <-.
    unfold values at 2. cbn [rows reset_index_drop]. rewrite range_index_snd.
    unfold values at 2. cbn [rows].
    destruct (filter_increasing
                (fun lr : nat * row =>
                   negb (existsb (Nat.eqb (fst lr))
                                 (indices_to_delete df rows_to_delete)))
                (rows df)) as (keep & Hs & Hf).
    exists keep. split; [assumption |].
    unfold values. now apply Forall2_lookup_map. }
  split; [now exists keep |].
  clear H. revert Hs. induction Hf as [| i r keep rs Hi Hf IH];
    intros Hs j1 j2 r1 r2 Hlt H1 H2; [discriminate H1 |].
  inversion Hs as [| ? ? Hs' Hall]; subst.
  destruct j2 as [| j2]; [lia |]. cbn in H2.
  destruct j1 as [| j1].
  - cbn in H1. injection H1 as <-.
    assert (exists i2, In i2 keep /\ values df !! i2 = Some r2) as (i2 & Hin & E).
    { clear - Hf H2. revert j2 H2.
      induction Hf as [| i' r' keep rs Hi' _ IH]; intros j2 H2;
        [discriminate H2 |].
      destruct j2 as [| j2]; cbn in H2.
      - injection H2 as <-. exists i'. split; [now left | assumption].
      - destruct (IH j2 H2) as (i2 & Hin & E). exists i2.
        split; [now right | assumption]. }
    exists i, i2. rewrite List.Forall_forall in Hall. auto.
  - cbn in H1. apply (IH Hs' j1 j2 r1 r2); [lia | assumption | assumption].
Qed.

Lemma df_nuevo_keeps_order_tres :
  (exists keep : list nat,
     StronglySorted lt keep /\
     Forall2 (fun i r => values df_tres !! i = Some r) keep
             [ new_row_ganado 0 "V7" "Luna" "Holstein" 5%float;
               new_row_ganado 1 "V9" "Perla" "Gyr" 10%float ]) /\
  (forall j1 j2 r1 r2,
     j1 < j2 ->
     [ new_row_ganado 0 "V7" "Luna" "Holstein" 5%float;
       new_row_ganado 1 "V9" "Perla" "Gyr" 10%float ] !! j1 = Some r1 ->
     [ new_row_ganado 0 "V7" "Luna" "Holstein" 5%float;
       new_row_ganado 1 "V9" "Perla" "Gyr" 10%float ] !! j2 = Some r2 ->
     exists i1 i2, i1 < i2 /\
                   values df_tres !! i1 = Some r1 /\
                   values df_tres !! i2 = Some r2).
Proof.
  apply (df_nuevo_keeps_order df_tres
           {| columns := columns_ganado;
              rows := [ (0, new_row_ganado 0 "V7" "Luna" "Holstein" 5%float);
                        (1, new_row_ganado 1 "V9" "Perla" "Gyr" 10%float) ] |}
           [1]).
  reflexivity.
Defined.

End BorradoTeoremas.

(** * The productivity summary *)

Section Sorting.
Context {A : Type} (leb : A -> A -> bool).

Lemma insert_sorted_Permutation (x : A) (l : list A) :
  Permutation (insert_sorted leb x l) (x :: l).
Proof.
  induction l as [| y l IH]; cbn; [reflexivity |].
  destruct (leb x y); [reflexivity |].
  rewrite IH. apply perm_swap.
Qed.

Lemma sort_by_Permutation (l : list A) : Permutation (sort_by leb l) l.
Proof.
  induction l as [| x l IH]; cbn; [reflexivity |].
  rewrite insert_sorted_Permutation. now constructor.
Qed.

Hypothesis leb_total : forall a b, leb a b = true \/ leb b a = true.

Lemma insert_sorted_Sorted (x : A) (l : list A) :
  Sorted (fun a b => leb a b = true) l ->
  Sorted (fun a b => leb a b = true) (insert_sorted leb x l).
Proof.
  induction 1 as [| y l Hs IH Hhd]; cbn; [repeat constructor |].
  destruct (leb x y) eqn:E.
  - constructor; [now constructor | now constructor].
  - constructor; [assumption |].
    destruct l as [| z l]; cbn in *.
    + constructor. destruct (leb_total x y); congruence.
    + destruct (leb x z); constructor.
      * destruct (leb_total x y); congruence.
      * now inversion Hhd.
Qed.

Lemma sort_by_Sorted (l : list A) :
  Sorted (fun a b => leb a b = true) (sort_by leb l).
Proof.
  induction l as [| x l IH]; cbn; [constructor |].
  now apply insert_sorted_Sorted.
Qed.

End Sorting.

Section Resumen.

Lemma mean_geb_total (a b : resumen) :
  mean_geb a b = true \/ mean_geb b a = true.
Proof.
  unfold mean_geb.
  destruct (PrimFloat.is_nan (Promedio_Diario b)) eqn:Eb; [now left |].
  destruct (PrimFloat.is_nan (Promedio_Diario a)) eqn:Ea; [now right |].
  destruct (leb_total (Promedio_Diario a) (Promedio_Diario b) Ea Eb); auto.
Qed.


Lemma Permutation_In_iff {A : Type} (l l' : list A) (x : A) :
  Permutation l l' -> (In x l <-> In x l').
Proof.
  intros H. split; apply Permutation_in; [assumption | now symmetry].
Qed.









End Resumen.

Section ProduccionMedia.
Local Open Scope float_scope.



End ProduccionMedia.

(** * Further facts on binary64 arithmetic *)

Section FloatProducts.
Local Open Scope float_scope.

Lemma leb_zero_not_nan (x : float) : (0 <=? x) = true -> is_nan x = false.
Proof.
  rewrite FloatAxioms.leb_spec. unfold is_nan. rewrite FloatAxioms.eqb_spec.
  change (Prim2SF 0) with (S754_zero false).
  destruct (Prim2SF x) as [s | s | | s m e]; cbn; try discriminate; intros _.
  - reflexivity.
  - now destruct s.
  - destruct s; cbn; now rewrite Z.compare_refl, Pos.compare_cont_refl.
Qed.

Lemma ltb_false_leb (x y : float) :
  is_nan x = false -> is_nan y = false -> (x <? y) = false -> (y <=? x) = true.
Proof.
  intros Hx Hy. apply is_nan_spec in Hx, Hy.
  rewrite FloatAxioms.ltb_spec, FloatAxioms.leb_spec. unfold SFltb, SFleb.
  rewrite (SFcompare_antisym (Prim2SF x) (Prim2SF y)).
  destruct (SFcompare (Prim2SF x) (Prim2SF y)) as [[] |] eqn:E; cbn;
    try congruence.
  destruct (Prim2SF x), (Prim2SF y); try congruence; cbn in E; try discriminate;
    repeat match goal with s : bool |- _ => destruct s end; discriminate.
Qed.

Lemma nonneg_sign (x : float) :
  (0 <=? x) = true -> sf_nonneg (Prim2SF x) = true.
Proof.
  rewrite FloatAxioms.leb_spec. change (Prim2SF 0) with (S754_zero false).
  destruct (Prim2SF x) as [s | s | | s m e]; cbn; try discriminate;
    try reflexivity; destruct s; cbn; congruence.
Qed.

Lemma sign_nonneg (x : float) :
  sf_nonneg (Prim2SF x) = true -> (0 <=? x) = true.
Proof.
  rewrite FloatAxioms.leb_spec. change (Prim2SF 0) with (S754_zero false).
  apply sf_nonneg_leb.
Qed.

Lemma mul_nonneg (x y : float) :
  is_finite x = true -> is_finite y = true ->
  (0 <=? x) = true -> (0 <=? y) = true -> (0 <=? x * y) = true.
Proof.
  intros Fx Fy Hx Hy. apply sign_nonneg. rewrite FloatAxioms.mul_spec.
  pose proof (is_finite_not_infinity _ Fx) as Ix.
  pose proof (is_finite_not_infinity _ Fy) as Iy.
  apply nonneg_sign in Hx, Hy.
  destruct (Prim2SF x) as [sx | sx | | sx mx ex];
    [ | now destruct (Ix sx) | discriminate | ];
    (destruct (Prim2SF y) as [sy | sy | | sy my ey];
     [ | now destruct (Iy sy) | discriminate | ]);
    try reflexivity.
  cbn in Hx, Hy. apply negb_true_iff in Hx, Hy. subst sx sy.
  unfold SF64mul, SFmul. cbn [xorb]. now apply binary_round_aux_nonneg.
Qed.

Lemma div_nonneg (x y : float) :
  is_finite x = true -> (0 <=? x) = true -> (0 <? y) = true ->
  (0 <=? x / y) = true.
Proof.
  intros Fx Hx Hy. apply sign_nonneg. rewrite FloatAxioms.div_spec.
  pose proof (is_finite_not_infinity _ Fx) as Ix.
  apply nonneg_sign in Hx.
  rewrite FloatAxioms.ltb_spec in Hy. change (Prim2SF 0) with (S754_zero false) in Hy.
  destruct (Prim2SF y) as [sy | sy | | sy my ey]; try discriminate Hy;
    (destruct sy; [discriminate Hy |]);
    (destruct (Prim2SF x) as [sx | sx | | sx mx ex];
     [ | now destruct (Ix sx) | discriminate | ]);
    try reflexivity.
  cbn in Hx. apply negb_true_iff in Hx. subst sx.
  unfold SF64div, SFdiv. cbn [xorb].
  destruct (SFdiv_core_binary prec emax (Z.pos mx) ex (Z.pos my) ey)
    as [[mz ez] lz] eqn:E.
  apply binary_round_aux_nonneg.
  unfold SFdiv_core_binary in E.
  set (m' := match _ with Z0 => _ | Zpos _ => _ | Zneg _ => _ end) in E.
  assert (0 <= m')%Z as Hm'.
  { subst m'. destruct (_ - _ - _)%Z; try lia. apply Z.shiftl_nonneg. lia. }
  pose proof (Z_div_mod m' (Z.pos my) ltac:(lia)) as Hdm.
  destruct (Z.div_eucl m' (Z.pos my)) as [q r]. injection E as <- _ _.
  nia.
Qed.
End FloatProducts.

(** * The cached store: further facts *)

Section StoreMore.

Lemma load_hit (k : ledger) (s : session) (df : DataFrame) :
  cache_of k s = Some df -> load k s = (df, s).
Proof.
  destruct k; cbn; unfold load_data_leche, load_data_gasolina, load_data_ganado;
    intros ->; reflexivity.
Qed.

Lemma on_disk_load (k k' : ledger) (s : session) :
  on_disk k (snd (load k' s)) = on_disk k s.
Proof. unfold on_disk. now rewrite load_disk. Qed.

Lemma on_disk_persist_same (k : ledger) (df : DataFrame) (s : session) :
  on_disk k (persist k df s) = read_csv (to_csv df).
Proof.
  unfold on_disk, read_or_empty. rewrite persist_disk.
  now rewrite lookup_insert_eq.
Qed.

Lemma on_disk_persist_other (k k' : ledger) (df : DataFrame) (s : session) :
  k <> k' -> on_disk k' (persist k df s) = on_disk k' s.
Proof.
  intros Hk. unfold on_disk, read_or_empty. rewrite persist_disk.
  rewrite lookup_insert_ne; [reflexivity |].
  intros E. now apply data_file_inj in E.
Qed.

Lemma ledger_eq_dec (k k' : ledger) : {k = k'} + {k <> k'}.
Proof. decide equality. Defined.

Lemma persist_cache_ne (k k' : ledger) (df : DataFrame) (s : session) :
  k' <> k ->
  cache_of k' (persist k df s) = Some (default (on_disk k' s) (cache_of k' s)).
Proof.
  intros Hne. unfold persist, save_data_and_rerun, experimental_rerun.
  rewrite carga_inicial_cache, clear_cache_other by assumption.
  unfold on_disk, read_or_empty. rewrite clear_cache_disk.
  cbn [write_file disk].
  rewrite lookup_insert_ne; [reflexivity |].
  intros E. apply data_file_inj in E. congruence.
Qed.

Lemma load_coherent (k : ledger) (s : session) :
  coherent s -> coherent (snd (load k s)).
Proof.
  intros Hc k' df H. rewrite on_disk_load.
  destruct (load_spec k s) as (Hf & Hk & Ho).
  destruct (ledger_eq_dec k' k) as [-> | Hne].
  - rewrite Hk in H. injection H as <-. rewrite Hf.
    destruct (cache_of k s) as [X |] eqn:E; cbn; [now apply Hc | reflexivity].
  - rewrite Ho in H by assumption. now apply Hc.
Qed.

Lemma persist_coherent (k : ledger) (df : DataFrame) (s : session) :
  coherent s -> coherent (persist k df s).
Proof.
  intros Hc k' X H.
  destruct (ledger_eq_dec k' k) as [-> | Hne].
  - rewrite persist_cache_same in H. injection H as <-.
    now rewrite on_disk_persist_same.
  - rewrite persist_cache_ne in H by assumption. injection H as <-.
    rewrite on_disk_persist_other by congruence.
    destruct (cache_of k' s) as [X |] eqn:E; cbn; [now apply Hc | reflexivity].
Qed.

Lemma coherent_session_0 : coherent session_0.
Proof. intros k df H. destruct k; discriminate H. Qed.

(** X1: a loader called twice returns the same frame both times, the second
    call leaves the session as the first left it, and no call touches the
    files. *)
Theorem load_twice (k : ledger) (s : session) :
  load k (snd (load k s)) = (fst (load k s), snd (load k s)) /\
  disk (snd (load k s)) = disk s.
Proof.
  split; [| apply load_disk].
  apply load_hit. now destruct (load_spec k s) as (_ & -> & _).
Qed.

(** X2: when the caches agree with the files, they still do after any
    sequence of loads and saves, and every load returns what is on disk for
    its ledger: the frame read from the file, or the empty frame with the
    columns of the ledger when there is no file. *)
Theorem run_coherent (ops : list op) (s : session) :
  coherent s ->
  coherent (run ops s) /\
  forall k, fst (load k (run ops s))
            = match disk (run ops s) !! data_file k with
              | Some f => read_csv f
              | None => DataFrame_columns (columns_of k)
              end.
Proof.
  intros Hc.
  assert (coherent (run ops s)) as Hr.
  { revert s Hc. induction ops as [| o ops IH]; intros s Hc; [exact Hc |].
    cbn [run fold_left]. apply IH. destruct o as [k | k df]; cbn [step].
    - now apply load_coherent.
    - now apply persist_coherent. }
  split; [exact Hr |]. intros k.
  destruct (load_spec k (run ops s)) as (-> & _).
  destruct (cache_of k (run ops s)) as [X |] eqn:E; cbn; [| reflexivity].
  now apply Hr.
Qed.

Lemma run_coherent_session_0 :
  let ops := [Load Ganado; Persist Ganado df_dos_pesajes; Load Leche;
              Persist Leche df_brahman; Load Ganado] in
  coherent (run ops session_0) /\
  forall k, fst (load k (run ops session_0))
            = match disk (run ops session_0) !! data_file k with
              | Some f => read_csv f
              | None => DataFrame_columns (columns_of k)
              end.
Proof.
  intros ops. apply (run_coherent ops session_0).
  intros k df H. destruct k; discriminate H.
Defined.

(** X3: a save writes one file only: every other file keeps its content,
    and the loaders of the other two ledgers return what they returned
    before. *)
Theorem persist_other_ledgers (k : ledger) (df : DataFrame) (s : session) :
  (forall filename, filename <> data_file k ->
                    disk (persist k df s) !! filename = disk s !! filename) /\
  (forall k', k' <> k -> fst (load k' (persist k df s)) = fst (load k' s)).
Proof.
  split.
  - intros filename Hf. rewrite persist_disk. now apply lookup_insert_ne.
  - intros k' Hk.
    destruct (load_spec k' (persist k df s)) as (-> & _).
    destruct (load_spec k' s) as (-> & _).
    now rewrite persist_cache_ne.
Qed.


Lemma values_read_csv_to_csv (df : DataFrame) :
  values (read_csv (to_csv df))
  = List.map (List.map (fun c => read_cell (write_cell c))) (values df).
Proof.
  rewrite read_csv_to_csv. unfold values at 1. cbn [rows].
  apply range_index_snd.
Qed.



End StoreMore.

(** * The three forms: what is accepted, and what an accepted record leaves *)

Section Registros.
Local Open Scope float_scope.




End Registros.

Section Append.

Lemma values_concat_ignore_index (df : DataFrame) (r : row) :
  values (concat_ignore_index df r) = values df ++ [r].
Proof. unfold values at 1. cbn [rows concat_ignore_index]. apply range_index_snd. Qed.




End Append.

(** * What the ledgers hold after any sequence of interactions *)

Section Ledgers.
Local Open Scope float_scope.

Lemma number_input_not_nan (x : float) : number_input x -> is_nan x = false.
Proof. intros [_ H]. now apply leb_zero_not_nan. Qed.

Lemma reread_Num (x : float) :
  (0 <=? x) = true -> read_cell (write_cell (Num x)) = Num x.
Proof.
  intros H. rewrite reread_cell. unfold keeps_value.
  now rewrite (leb_zero_not_nan x H).
Qed.

Lemma reread_Str (t : string) : stored_text (read_cell (write_cell (Str t))).
Proof.
  rewrite reread_cell. unfold keeps_value.
  destruct (is_na_text t) eqn:E; cbn; [now left | right; eauto].
Qed.

Lemma reread_stored_text (c : cell) :
  stored_text c -> read_cell (write_cell c) = c.
Proof.
  intros [-> | (t & -> & H)]; [reflexivity |].
  rewrite reread_cell. unfold keeps_value. now rewrite H.
Qed.

(** The losses of a lot whose volumes are in order. *)
Lemma perdidas_nonneg (ve vp vv : float) :
  number_input ve -> number_input vp -> number_input vv ->
  (vv <=? vp) = true -> (vp <=? ve) = true ->
  (0 <=? perdida_pesaje ve vp) = true /\
  (0 <=? perdida_venta vp vv) = true /\
  (0 <=? perdida_total ve vv) = true.
Proof.
  intros [Fe He] [Fp Hp] [Fv Hv] Hvp Hpe.
  unfold perdida_pesaje, perdida_venta, perdida_total.
  repeat split; apply sub_nonneg;
    eauto using is_finite_not_infinity, leb_trans.
Qed.

Lemma eficiencia_nonneg (km l : float) :
  number_input km -> (0 <=? eficiencia km l) = true.
Proof.
  intros [Fk Hk]. unfold eficiencia.
  destruct (0 <? l) eqn:E; [now apply div_nonneg | reflexivity].
Qed.

Lemma gasto_total_nonneg (l c : float) :
  number_input l -> number_input c -> (0 <=? gasto_total l c) = true.
Proof. intros [Fl Hl] [Fc Hc]. now apply mul_nonneg. Qed.

(** The rows of a ledger are given back by its file as they are. *)
Lemma ledger_row_stable (k : ledger) (r : row) :
  ledger_row k r -> file_gives_back r = r.
Proof.
  destruct k; cbn [ledger_row].
  - intros (f & idc & ve & vp & vv & -> & Hid & He & Hp & Hv & Hvp & Hpe).
    destruct (perdidas_nonneg ve vp vv) as (H1 & H2 & H3); try assumption.
    unfold file_gives_back. cbn [List.map].
    rewrite (reread_stored_text idc Hid).
    rewrite !reread_Num by (assumption || apply He || apply Hp || apply Hv).
    reflexivity.
  - intros (f & idc & l & c & km & -> & Hid & Hl & Hc & Hk & _ & _).
    unfold file_gives_back. cbn [List.map].
    rewrite (reread_stored_text idc Hid).
    rewrite !reread_Num
      by (apply Hl || apply Hc || apply Hk || now apply gasto_total_nonneg
          || now apply eficiencia_nonneg).
    reflexivity.
  - intros (f & idc & nc & b & l & -> & Hid & Hn & Hb & Hl).
    unfold file_gives_back. cbn [List.map].
    rewrite (reread_stored_text idc Hid), (reread_stored_text nc Hn).
    rewrite reread_Num by apply Hl.
    assert (is_na_text b = false) as Hna.
    { cbn in Hb. destruct Hb as [<- | [<- | [<- | [<- | [<- | []]]]]];
        reflexivity. }
    rewrite (reread_cell (Str b)). unfold keeps_value. now rewrite Hna.
Qed.

(** The rows the forms build, once given back by the file. *)
Lemma new_row_leche_ok (f : Z) (id : string) (ve vp vv : float) :
  number_input ve -> number_input vp -> number_input vv ->
  (ve <? vp) || (vp <? vv) = false ->
  leche_row (file_gives_back (new_row_leche f id ve vp vv)).
Proof.
  intros He Hp Hv Hacc. apply orb_false_elim in Hacc as [H1 H2].
  apply ltb_false_leb in H1, H2; auto using number_input_not_nan.
  destruct (perdidas_nonneg ve vp vv) as (L1 & L2 & L3); try assumption.
  exists f, (read_cell (write_cell (Str id))), ve, vp, vv.
  split.
  { unfold file_gives_back, new_row_leche. cbn [List.map].
    rewrite !reread_Num by (assumption || apply He || apply Hp || apply Hv).
    reflexivity. }
  split; [apply reread_Str |]. auto.
Qed.

Lemma new_row_gasolina_ok (f : Z) (id : string) (l km c : float) :
  number_input l -> number_input km -> number_input c ->
  (km =? 0) && (0 <? l) = false -> (l =? 0) && (0 <? km) = false ->
  gasolina_row (file_gives_back (new_row_gasolina f id l c km)).
Proof.
  intros Hl Hk Hc H1 H2.
  exists f, (read_cell (write_cell (Str id))), l, c, km.
  split.
  { unfold file_gives_back, new_row_gasolina. cbn [List.map].
    rewrite !reread_Num
      by (apply Hl || apply Hc || apply Hk || now apply gasto_total_nonneg
          || now apply eficiencia_nonneg).
    reflexivity. }
  split; [apply reread_Str |]. auto.
Qed.

Lemma raza_animal_In (id : string) (df : DataFrame) (picked : option nat) :
  In (raza_animal id df picked) raza_options.
Proof. apply selectbox_In, raza_index_lt. Qed.

Lemma new_row_ganado_ok (f : Z) (id nombre b : string) (l : float) :
  In b raza_options -> number_input l ->
  ganado_row (file_gives_back (new_row_ganado f id nombre b l)).
Proof.
  intros Hb Hl.
  exists f, (read_cell (write_cell (Str id))),
         (read_cell (write_cell (Str nombre))), b, l.
  split.
  { unfold file_gives_back, new_row_ganado. cbn [List.map].
    rewrite reread_Num by apply Hl.
    assert (is_na_text b = false) as Hna.
    { cbn in Hb. destruct Hb as [<- | [<- | [<- | [<- | [<- | []]]]]];
        reflexivity. }
    rewrite (reread_cell (Str b)). unfold keeps_value. now rewrite Hna. }
  split; [apply reread_Str |]. split; [apply reread_Str |]. auto.
Qed.

End Ledgers.

Section Reachable.

Lemma carga_inicial_frame (k : ledger) (s : session) :
  frame_of k (fst (carga_inicial s)) = default (on_disk k s) (cache_of k s).
Proof.
  unfold carga_inicial, load_data_leche, load_data_gasolina, load_data_ganado,
    on_disk.
  destruct k, (cache_leche s) eqn:E1, (cache_gasolina s) eqn:E2,
    (cache_ganado s) eqn:E3; cbn; rewrite ?E1, ?E2, ?E3; reflexivity.
Qed.

Lemma on_disk_carga_inicial (k : ledger) (s : session) :
  on_disk k (snd (carga_inicial s)) = on_disk k s.
Proof. unfold on_disk. now rewrite carga_inicial_disk. Qed.

Lemma carga_inicial_coherent (s : session) :
  coherent s -> coherent (snd (carga_inicial s)).
Proof.
  intros Hc k df H. rewrite carga_inicial_cache in H. injection H as <-.
  rewrite on_disk_carga_inicial.
  destruct (cache_of k s) as [X |] eqn:E; cbn; [now apply Hc | reflexivity].
Qed.

Lemma coherent_frame (k : ledger) (s : session) :
  coherent s -> frame_of k (fst (carga_inicial s)) = on_disk k s.
Proof.
  intros Hc. rewrite carga_inicial_frame.
  destruct (cache_of k s) as [X |] eqn:E; cbn; [now apply Hc | reflexivity].
Qed.

Lemma carga_inicial_ledgers_ok (s : session) :
  ledgers_ok s -> ledgers_ok (snd (carga_inicial s)).
Proof.
  intros [Hc Hk]. split; [now apply carga_inicial_coherent |].
  intros k. rewrite on_disk_carga_inicial. apply Hk.
Qed.

Lemma columns_read_csv_to_csv (df : DataFrame) :
  columns (read_csv (to_csv df)) = columns df.
Proof. reflexivity. Qed.

Lemma persist_ledgers_ok (k : ledger) (df : DataFrame) (s : session) :
  ledgers_ok s -> columns df = columns_of k ->
  Forall (fun r => ledger_row k (file_gives_back r)) (values df) ->
  ledgers_ok (persist k df s).
Proof.
  intros [Hc Hk] Hcols Hrows. split; [now apply persist_coherent |].
  intros k'. destruct (ledger_eq_dec k' k) as [-> | Hne].
  - rewrite on_disk_persist_same, columns_read_csv_to_csv.
    split; [exact Hcols |].
    rewrite values_read_csv_to_csv. now apply Forall_map.
  - rewrite on_disk_persist_other by congruence. apply Hk.
Qed.

Lemma ledger_row_given_back (k : ledger) (rs : list row) :
  Forall (ledger_row k) rs ->
  Forall (fun r => ledger_row k (file_gives_back r)) rs.
Proof.
  apply List.Forall_impl. intros r H. now rewrite (ledger_row_stable k r H).
Qed.

(** An accepted record keeps the ledgers as they should be. *)
Lemma append_ledgers_ok (k : ledger) (r : row) (s : session) :
  ledgers_ok s -> ledger_row k (file_gives_back r) ->
  ledgers_ok (persist k (concat_ignore_index (on_disk k s) r) s).
Proof.
  intros Hs Hr. pose proof Hs as [Hc Hk]. destruct (Hk k) as [Hcols Hrows].
  apply persist_ledgers_ok; [exact Hs | exact Hcols |].
  rewrite values_concat_ignore_index. apply Forall_app. split.
  - now apply ledger_row_given_back.
  - now constructor.
Qed.

(** The delete part on a frame read from disk: no [KeyError], and the
    ledgers stay as they should be. *)
Lemma df_nuevo_on_disk (k : ledger) (s : session) (ps : list nat) :
  exists d, df_nuevo (on_disk k s) ps = Some d /\
            columns d = columns (on_disk k s) /\
            incl (values d) (values (on_disk k s)).
Proof.
  rewrite (drop_range _ ps (on_disk_range_index k s)).
  eexists. split; [reflexivity |]. split; [reflexivity |].
  unfold values at 1. cbn [rows]. rewrite range_index_snd.
  intros r Hr. apply in_map_iff in Hr as ([i r'] & <- & Hin).
  apply filter_In in Hin as [Hin _]. now apply in_combine_r in Hin.
Qed.

Lemma eliminar_registros_ledgers_ok (k : ledger) (no_data : string)
    (ps : list nat) (s : session) :
  ledgers_ok s ->
  fst (eliminar_registros no_data ps (on_disk k s) (data_file k) s) <> KeyError
  /\ ledgers_ok
       (snd (eliminar_registros no_data ps (on_disk k s) (data_file k) s)).
Proof.
  intros Hs. unfold eliminar_registros.
  destruct (empty (on_disk k s)); [split; [discriminate | exact Hs] |].
  destruct ps as [| p ps]; [split; [discriminate | exact Hs] |].
  destruct (df_nuevo_on_disk k s (p :: ps)) as (d & -> & Hcols & Hincl).
  split; [discriminate |]. cbn [snd].
  pose proof Hs as [Hc Hk]. destruct (Hk k) as [Hcols' Hrows].
  apply (persist_ledgers_ok k d s Hs); [congruence |].
  apply ledger_row_given_back. rewrite List.Forall_forall in *.
  intros r Hr. apply Hrows, Hincl, Hr.
Qed.

Lemma script_ledgers_ok (a : action) (s : session) :
  ledgers_ok s -> from_widgets a ->
  fst (script a s) <> KeyError /\ ledgers_ok (snd (script a s)).
Proof.
  intros Hs Ha. unfold script.
  pose proof (carga_inicial_ledgers_ok s Hs) as Hs1.
  pose proof (fun k => coherent_frame k s (proj1 Hs)) as Hfr.
  pose proof (fun k => on_disk_carga_inicial k s) as Hd.
  destruct (carga_inicial s) as [fr s1]. cbn [fst snd] in *.
  destruct a as [f id ve vp vv | f id nombre picked l | f id l km c
                | ps | ps | ps]; cbn [from_widgets] in Ha.
  - unfold registro_leche.
    destruct ((ve <? vp)%float || (vp <? vv)%float) eqn:E;
      [split; [discriminate | exact Hs1] |].
    destruct (String.eqb id ""); [split; [discriminate | exact Hs1] |].
    split; [discriminate |]. cbn [snd].
    specialize (Hfr Leche). cbn [frame_of] in Hfr. rewrite Hfr, <- (Hd Leche).
    apply (append_ledgers_ok Leche); [exact Hs1 |].
    destruct Ha as (He & Hp & Hv). now apply new_row_leche_ok.
  - unfold registro_ganado.
    destruct (String.eqb id ""); [split; [discriminate | exact Hs1] |].
    split; [discriminate |]. cbn [snd].
    specialize (Hfr Ganado). cbn [frame_of] in Hfr. rewrite Hfr, <- (Hd Ganado).
    apply (append_ledgers_ok Ganado); [exact Hs1 |].
    apply new_row_ganado_ok; [apply raza_animal_In | exact Ha].
  - unfold registro_gasolina.
    destruct (String.eqb id ""); [split; [discriminate | exact Hs1] |].
    destruct ((km =? 0)%float && (0 <? l)%float) eqn:E1;
      [split; [discriminate | exact Hs1] |].
    destruct ((l =? 0)%float && (0 <? km)%float) eqn:E2;
      [split; [discriminate | exact Hs1] |].
    split; [discriminate |]. cbn [snd].
    specialize (Hfr Gasolina). cbn [frame_of] in Hfr.
    rewrite Hfr, <- (Hd Gasolina).
    apply (append_ledgers_ok Gasolina); [exact Hs1 |].
    destruct Ha as (Hl & Hk & Hc). now apply new_row_gasolina_ok.
  - unfold borrar_leche. specialize (Hfr Leche). cbn [frame_of] in Hfr.
    rewrite Hfr, <- (Hd Leche).
    now apply (eliminar_registros_ledgers_ok Leche).
  - unfold borrar_ganado. specialize (Hfr Ganado). cbn [frame_of] in Hfr.
    rewrite Hfr, <- (Hd Ganado).
    now apply (eliminar_registros_ledgers_ok Ganado).
  - unfold borrar_gasolina. specialize (Hfr Gasolina). cbn [frame_of] in Hfr.
    rewrite Hfr, <- (Hd Gasolina).
    now apply (eliminar_registros_ledgers_ok Gasolina).
Qed.

Lemma play_ledgers_ok (acts : list action) (s : session) :
  ledgers_ok s -> Forall from_widgets acts -> ledgers_ok (play acts s).
Proof.
  intros Hs Ha. revert s Hs.
  induction Ha as [| a acts Ha _ IH]; intros s Hs; [exact Hs |].
  cbn [play fold_left]. apply IH. now apply script_ledgers_ok.
Qed.

Lemma ledgers_ok_session_0 : ledgers_ok session_0.
Proof.
  split; [apply coherent_session_0 |].
  intros k. destruct k; split; (reflexivity || constructor).
Qed.

Lemma from_widgets_acts_demo : Forall from_widgets acts_demo.
Proof.
  unfold acts_demo, from_widgets, number_input.
  repeat constructor.
Qed.

(** The frame of a ledger at the top of a run after any interactions. *)
Lemma play_frame (k : ledger) (acts : list action) (s : session) :
  ledgers_ok s -> Forall from_widgets acts ->
  let df := frame_of k (fst (carga_inicial (play acts s))) in
  columns df = columns_of k /\
  index df = seq 0 (length (rows df)) /\
  Forall (ledger_row k) (values df).
Proof.
  intros Hs Ha df. subst df.
  pose proof (play_ledgers_ok acts s Hs Ha) as [Hc Hk].
  rewrite (coherent_frame k _ Hc). destruct (Hk k) as [H1 H2].
  split; [exact H1 |]. split; [apply on_disk_range_index | exact H2].
Qed.

End Reachable.

(** * What every run of the script finds *)

(** The first run, and the interactions of the examples. *)
Ltac first_run :=
  split; [intros [] ? ?; discriminate
         | intros []; split; (reflexivity || constructor)].
Ltac widgets := unfold acts_demo, from_widgets, number_input; repeat constructor.

Section Runs.
Local Open Scope float_scope.


Lemma script_no_KeyError (a : action) (s : session) :
  ledgers_ok s -> fst (script a s) <> KeyError.
Proof.
  intros Hs.
  destruct a as [f id ve vp vv | f id nombre picked l | f id l km c
                | ps | ps | ps];
    try (now apply script_ledgers_ok);
    unfold script; destruct (carga_inicial s) as [fr s1].
  - unfold registro_leche. destruct (_ || _); [discriminate |].
    destruct (String.eqb id ""); discriminate.
  - unfold registro_ganado. destruct (String.eqb id ""); discriminate.
  - unfold registro_gasolina. destruct (String.eqb id ""); [discriminate |].
    destruct (_ && _); [discriminate |]. destruct (_ && _); discriminate.
Qed.

(** X9: whatever was registered and deleted before, a run of the script
    finds every ledger with its fixed columns and a range index, and no
    button of the run ends in a [KeyError]. *)
Theorem play_frames (acts : list action) (s : session) :
  ledgers_ok s -> Forall from_widgets acts ->
  (forall k,
     let df := frame_of k (fst (carga_inicial (play acts s))) in
     columns df = columns_of k /\ index df = seq 0 (length (rows df))) /\
  (forall a, fst (script a (play acts s)) <> KeyError).
Proof.
  intros Hs Ha. split.
  - intros k. destruct (play_frame k acts s Hs Ha) as (H1 & H2 & _). now split.
  - intros a. apply script_no_KeyError. now apply play_ledgers_ok.
Qed.

Lemma play_frames_demo :
  (forall k,
     let df := frame_of k (fst (carga_inicial (play acts_demo session_0))) in
     columns df = columns_of k /\ index df = seq 0 (length (rows df))) /\
  (forall a, fst (script a (play acts_demo session_0)) <> KeyError).
Proof. apply (play_frames acts_demo session_0); [first_run | widgets]. Defined.





End Runs.

Section RunsGanado.
Local Open Scope float_scope.












End RunsGanado.

(** * Deleting records: the selection and the count *)

Section Seleccion.

Lemma ID_Fila_combine (l : list (nat * row)) :
  forall a, List.map ID_Fila (combine (seq a (length l)) l) = List.map fst l.
Proof.
  induction l as [| x l IH]; intros a; [reflexivity |].
  cbn [length seq combine List.map]. now rewrite IH.
Qed.

Lemma multiselect_options_index (df : DataFrame) :
  multiselect_options df = index df.
Proof. apply ID_Fila_combine. Qed.

Lemma filter_selected_length (ps : list nat) (n : nat) :
  List.NoDup ps -> (forall p, In p ps -> p < n) ->
  length (List.filter (selected ps) (seq 0 n)) = length ps.
Proof.
  intros Hnd Hlt. apply Permutation_length, Permutation.NoDup_Permutation.
  - apply List.NoDup_filter, seq_NoDup.
  - exact Hnd.
  - intros x. rewrite filter_In, in_seq, selected_In. split; [tauto |].
    intros H. specialize (Hlt x H). split; [lia | exact H].
Qed.

Lemma filter_negb_length {A : Type} (P : A -> bool) (l : list A) :
  length (List.filter (fun x => negb (P x)) l) + length (List.filter P l)
  = length l.
Proof.
  induction l as [| x l IH]; [reflexivity |].
  cbn [List.filter]. destruct (P x); cbn [negb length]; lia.
Qed.

Lemma df_nuevo_length (df : DataFrame) (ps : list nat) :
  index df = seq 0 (length (rows df)) ->
  exists d, df_nuevo df ps = Some d /\
            length (rows d)
            = length (List.filter (fun i => negb (selected ps i))
                                  (seq 0 (length (rows df)))).
Proof.
  intros Hidx. rewrite (drop_range df ps Hidx). eexists.
  split; [reflexivity |]. cbn [rows].
  rewrite range_index_length, length_map.
  rewrite (filter_range_length (fun i => negb (selected ps i))).
  unfold values. now rewrite length_map.
Qed.

(** X14: the count announced by a delete button is the number of records
    removed: on a frame as it is loaded, a selection of the multiselect
    (options of the widget, none twice) leaves a frame shorter by the length
    of the selection. *)
Theorem df_nuevo_count (df : DataFrame) (rows_to_delete : list nat) :
  index df = seq 0 (length (rows df)) ->
  List.NoDup rows_to_delete ->
  incl rows_to_delete (multiselect_options df) ->
  exists d, df_nuevo df rows_to_delete = Some d /\
            length (rows d) + length rows_to_delete = length (rows df).
Proof.
  intros Hidx Hnd Hin.
  destruct (df_nuevo_length df rows_to_delete Hidx) as (d & Hd & Hlen).
  exists d. split; [exact Hd |]. rewrite Hlen.
  rewrite <- (filter_selected_length rows_to_delete (length (rows df)) Hnd).
  - rewrite filter_negb_length. apply length_seq.
  - intros p Hp. apply Hin in Hp. rewrite multiselect_options_index, Hidx in Hp.
    apply in_seq in Hp. lia.
Qed.

Lemma df_nuevo_count_tres :
  exists d, df_nuevo df_tres [2; 0] = Some d /\
            length (rows d) + length [2; 0] = length (rows df_tres).
Proof.
  apply (df_nuevo_count df_tres [2; 0]).
  - reflexivity.
  - repeat constructor; cbn; lia.
  - intros p [<- | [<- | []]]; cbn; auto.
Defined.

(** X15: on a frame as it is loaded a deletion never fails, and only the
    set of positions selected matters: two selections that hold the same
    positions of the frame, in whatever order, however often, and whatever
    they hold beyond the last row, give the same frame. *)
Theorem df_nuevo_selection_set (df : DataFrame) (ps ps' : list nat) :
  index df = seq 0 (length (rows df)) ->
  (forall i, i < length (rows df) -> (In i ps <-> In i ps')) ->
  df_nuevo df ps <> None /\ df_nuevo df ps = df_nuevo df ps'.
Proof.
  intros Hidx Hsame. rewrite !(drop_range df _ Hidx).
  split; [discriminate |]. do 4 f_equal.
  apply List.filter_ext_in. intros [i r] Hin. cbn [fst]. f_equal.
  apply in_combine_l, in_seq in Hin.
  assert (i < length (rows df)) as Hi
    by (unfold values in Hin; rewrite length_map in Hin; lia).
  specialize (Hsame i Hi). rewrite <- !selected_In in Hsame.
  destruct (selected ps i), (selected ps' i); intuition congruence.
Qed.

Lemma df_nuevo_selection_set_tres :
  df_nuevo df_tres [2; 0; 2; 7] <> None /\
  df_nuevo df_tres [2; 0; 2; 7] = df_nuevo df_tres [0; 2].
Proof.
  apply (df_nuevo_selection_set df_tres [2; 0; 2; 7] [0; 2]);
    [reflexivity |].
  intros i Hi. change (length (rows df_tres)) with 3 in Hi. cbn [In]. lia.
Defined.

End Seleccion.

(** * The tables and the charts of the tabs *)

Section Tablas.

Lemma fecha_geb_total (a b : cell) :
  fecha_geb a b = true \/ fecha_geb b a = true.
Proof.
  unfold fecha_geb. destruct (as_date a), (as_date b); auto. lia.
Qed.

Lemma fecha_geb_trans (a b c : cell) :
  fecha_geb a b = true -> fecha_geb b c = true -> fecha_geb a c = true.
Proof.
  unfold fecha_geb.
  destruct (as_date a), (as_date b), (as_date c);
    try reflexivity; try discriminate. lia.
Qed.

Lemma map_snd_combine_seq {A B : Type} (f : A -> B) (l : list A) :
  forall a, List.map (fun d => f (snd d)) (combine (seq a (length l)) l)
            = List.map f l.
Proof.
  induction l as [| x l IH]; intros a; [reflexivity |].
  cbn [length seq combine List.map snd]. now rewrite IH.
Qed.

Lemma historial_Permutation (cols : list nat) (df : DataFrame) :
  Permutation (historial cols df)
              (List.map (fun lr => (fst lr, project cols (snd lr))) (rows df)).
Proof.
  unfold historial. rewrite sort_by_Permutation. unfold df_display, ID_Fila.
  now rewrite (map_snd_combine_seq
                 (fun lr : nat * row => (fst lr, project cols (snd lr)))).
Qed.

Lemma In_range (l : list row) (i : nat) (r : row) :
  forall a, In (i, r) (combine (seq a (length l)) l) ->
            a <= i /\ l !! (i - a) = Some r.
Proof.
  induction l as [| x l IH]; intros a; [intros [] |].
  cbn [length seq combine]. intros [[= <- <-] | H].
  - split; [lia |]. now rewrite Nat.sub_diag.
  - apply IH in H as [H1 H2]. split; [lia |].
    replace (i - a) with (S (i - S a)) by lia. exact H2.
Qed.

Lemma filter_none (l : list row) (t : nat) :
  forall a, t < a ->
    List.map snd
      (List.filter (fun lr => negb (selected [t] (fst lr)))
                   (combine (seq a (length l)) l)) = l.
Proof.
  induction l as [| x l IH]; intros a Ha; [reflexivity |].
  cbn [length seq combine List.filter fst selected existsb].
  destruct (Nat.eqb_spec a t) as [E | _]; [lia |].
  cbn [orb negb List.map snd]. f_equal. apply IH. lia.
Qed.

Lemma filter_one (l : list row) :
  forall a i,
    List.map snd
      (List.filter (fun lr => negb (selected [a + i] (fst lr)))
                   (combine (seq a (length l)) l))
    = firstn i l ++ skipn (S i) l.
Proof.
  induction l as [| x l IH]; intros a i.
  - now destruct i.
  - cbn [length seq combine List.filter fst selected existsb].
    destruct (Nat.eqb_spec a (a + i)) as [E | Hne]; cbn [orb negb].
    + assert (i = 0) as -> by lia. rewrite Nat.add_0_r.
      cbn [firstn skipn app]. apply filter_none. lia.
    + destruct i as [| i]; [lia |].
      cbn [List.map snd firstn skipn app]. f_equal.
      replace (a + S i) with (S a + i) by lia. apply IH.
Qed.

(** X16: the table of a tab shows every record of its ledger once, beside
    its row label, and no record above a record of a later day; records
    without a date come last. *)
Theorem historial_shows (cols : list nat) (df : DataFrame) :
  Permutation (historial (0 :: cols) df)
              (List.map (fun lr => (fst lr, project (0 :: cols) (snd lr)))
                        (rows df)) /\
  (forall r, Fecha (project (0 :: cols) r) = Fecha r) /\
  StronglySorted
    (fun a b => match as_date (Fecha (snd b)) with
                | None => True
                | Some db => exists da, as_date (Fecha (snd a)) = Some da /\
                                        (db <= da)%Z
                end)
    (historial (0 :: cols) df).
Proof.
  split; [apply historial_Permutation |]. split; [reflexivity |].
  assert (StronglySorted
            (fun a b : nat * row =>
               fecha_geb (Fecha (snd a)) (Fecha (snd b)) = true)
            (historial (0 :: cols) df)) as H.
  { apply Sorted_StronglySorted.
    - intros a b c. apply fecha_geb_trans.
    - apply (sort_by_Sorted
               (fun a b : nat * row =>
                  fecha_geb (Fecha (snd a)) (Fecha (snd b)))).
      intros a b. apply fecha_geb_total. }
  induction H as [| a l _ IH Hall]; constructor; [exact IH |].
  revert Hall. apply List.Forall_impl. intros b. unfold fecha_geb.
  destruct (as_date (Fecha (snd b))) as [db |]; [| auto].
  destruct (as_date (Fecha (snd a))) as [da |]; [| discriminate].
  intros H. exists da. split; [reflexivity | lia].
Qed.

(** X17: the label shown beside a record in the table of a tab is the one
    to select to delete it: on a frame as it is loaded, the record is the
    row at that position, and deleting that label alone gives the frame
    without this row, the others in their order. *)
Theorem historial_borrar (cols : list nat) (df : DataFrame) (i : nat)
    (shown : row) :
  index df = seq 0 (length (rows df)) ->
  In (i, shown) (historial cols df) ->
  exists r d,
    values df !! i = Some r /\ shown = project cols r /\
    In i (multiselect_options df) /\
    df_nuevo df [i] = Some d /\
    values d = firstn i (values df) ++ skipn (S i) (values df).
Proof.
  intros Hidx Hin.
  apply (Permutation_In_iff _ _ _ (historial_Permutation cols df)) in Hin.
  apply in_map_iff in Hin as ([i' r] & [= -> <-] & Hin).
  assert (In i (index df)) as Hi
    by (unfold index; apply in_map_iff; exists (i, r); now split).
  rewrite (rows_range df Hidx) in Hin. apply In_range in Hin as [_ Hin].
  rewrite Nat.sub_0_r in Hin.
  eexists r, _. split; [exact Hin |]. split; [reflexivity |].
  split; [now rewrite multiselect_options_index |].
  split; [apply (drop_range df [i] Hidx) |].
  unfold values at 1. cbn [rows]. rewrite range_index_snd.
  apply (filter_one (values df) 0 i).
Qed.

Lemma historial_borrar_tres :
  In (1, project [0; 1; 2; 4] (new_row_ganado 0 "V8" "Mora" "Jersey" 7%float))
     (historial_ganado df_tres) /\
  exists r d,
    values df_tres !! 1 = Some r /\
    project [0; 1; 2; 4] (new_row_ganado 0 "V8" "Mora" "Jersey" 7%float)
    = project [0; 1; 2; 4] r /\
    In 1 (multiselect_options df_tres) /\
    df_nuevo df_tres [1] = Some d /\
    values d = firstn 1 (values df_tres) ++ skipn 2 (values df_tres).
Proof.
  assert (In (1, project [0; 1; 2; 4]
                   (new_row_ganado 0 "V8" "Mora" "Jersey" 7%float))
             (historial_ganado df_tres)) as H
    by (vm_compute; auto).
  split; [exact H |].
  exact (historial_borrar [0; 1; 2; 4] df_tres 1 _ eq_refl H).
Defined.

End Tablas.

Section Graficos.

Lemma StronglySorted_lt (l : list Z) :
  StronglySorted (fun a b => (a <=? b)%Z = true) l -> List.NoDup l ->
  StronglySorted Z.lt l.
Proof.
  induction 1 as [| x l _ IH Hall]; intros Hnd; constructor.
  - apply IH. now inversion Hnd.
  - inversion Hnd as [| ? ? Hx _]; subst.
    rewrite List.Forall_forall in *. intros y Hy.
    specialize (Hall y Hy). apply Z.leb_le in Hall.
    assert (x <> y) by (intros ->; contradiction). lia.
Qed.

Lemma chart_days (df : DataFrame) :
  List.map fst (df_chart_grouped df)
  = sort_by Z.leb
      (nodup Z.eq_dec (omap (fun r => as_date (Fecha r)) (values df))).
Proof.
  unfold df_chart_grouped. rewrite List.map_map. cbn [fst]. apply List.map_id.
Qed.

Lemma as_date_Ts (c : cell) (d : Z) : as_date c = Some d <-> c = Ts d.
Proof. destruct c; cbn; split; congruence. Qed.

Lemma chart_days_In (df : DataFrame) (d : Z) :
  In d (List.map fst (df_chart_grouped df))
  <-> exists r, In r (values df) /\ Fecha r = Ts d.
Proof.
  rewrite chart_days.
  rewrite (Permutation_In_iff _ _ d (sort_by_Permutation Z.leb _)).
  rewrite nodup_In, <- list_elem_of_In, list_elem_of_omap.
  split; intros (r & Hr & E); exists r.
  - apply as_date_Ts in E. split; [now apply list_elem_of_In | assumption].
  - split; [now apply list_elem_of_In | now apply as_date_Ts].
Qed.

Lemma rows_of_day_In (d : Z) (df : DataFrame) (r : row) :
  In r (rows_of_day d df) <-> In r (values df) /\ Fecha r = Ts d.
Proof.
  unfold rows_of_day. rewrite filter_In. split; intros [H1 H2]; split; auto.
  - destruct (as_date (Fecha r)) as [d' |] eqn:E; [| discriminate].
    apply Z.eqb_eq in H2 as ->. now apply as_date_Ts.
  - rewrite H2. cbn. apply Z.eqb_refl.
Qed.

(** X18: the chart of milk losses has one point for every day on which the
    ledger has a lot, and no other; the points come by increasing day, and
    each carries the sum of the total losses of the lots of its day, taken
    in the order of the ledger. *)
Theorem df_chart_grouped_days (df : DataFrame) :
  StronglySorted Z.lt (List.map fst (df_chart_grouped df)) /\
  (forall d, In d (List.map fst (df_chart_grouped df))
             <-> exists r, In r (values df) /\ Fecha r = Ts d) /\
  (forall d total,
     In (d, total) (df_chart_grouped df) ->
     rows_of_day d df <> [] /\
     (forall r, In r (rows_of_day d df)
                <-> In r (values df) /\ Fecha r = Ts d) /\
     total = agg_sum (List.map Perdida_Total (rows_of_day d df))).
Proof.
  split; [| split].
  - rewrite chart_days. apply StronglySorted_lt.
    + apply Sorted_StronglySorted.
      * intros a b c Hab Hbc. apply Z.leb_le in Hab, Hbc. apply Z.leb_le. lia.
      * apply sort_by_Sorted. intros a b.
        destruct (Z.leb_spec a b); [now left | right; apply Z.leb_le; lia].
    + eapply Permutation_NoDup;
        [symmetry; apply sort_by_Permutation | apply List.NoDup_nodup].
  - apply chart_days_In.
  - intros d total Hin.
    assert (In d (List.map fst (df_chart_grouped df))) as Hd
      by (apply in_map_iff; exists (d, total); now split).
    apply chart_days_In in Hd as (r & Hr & Er).
    split; [| split].
    + intros E. assert (In r (rows_of_day d df)) as H
        by (apply rows_of_day_In; now split).
      now rewrite E in H.
    + intros r'. apply rows_of_day_In.
    + unfold df_chart_grouped in Hin.
      apply in_map_iff in Hin as (d' & [= -> <-] & _). reflexivity.
Qed.

(** X19: in any run, every lot of the milk ledger has a date and is counted
    in the point of the chart for its day, and in no other. *)
Theorem play_chart_leche (acts : list action) (s : session) :
  ledgers_ok s -> Forall from_widgets acts ->
  let df := df_leche (fst (carga_inicial (play acts s))) in
  Forall (fun r => exists d,
            Fecha r = Ts d /\
            In d (List.map fst (df_chart_grouped df)) /\
            forall d', In r (rows_of_day d' df) <-> d' = d)
         (values df).
Proof.
  intros Hs Ha df. subst df.
  destruct (play_frame Leche acts s Hs Ha) as (_ & _ & H).
  cbn [frame_of] in H.
  set (df := df_leche (fst (carga_inicial (play acts s)))) in *.
  rewrite List.Forall_forall in *. intros r Hr.
  destruct (H r Hr) as (f & idc & ve & vp & vv & E & _).
  exists f. assert (Fecha r = Ts f) as Ef by (now rewrite E).
  split; [exact Ef |]. split.
  - apply chart_days_In. now exists r.
  - intros d'. rewrite rows_of_day_In, Ef. split.
    + now intros [_ [= ->]].
    + now intros ->.
Qed.

Lemma play_chart_leche_demo :
  let df := df_leche (fst (carga_inicial (play acts_demo session_0))) in
  Forall (fun r => exists d,
            Fecha r = Ts d /\
            In d (List.map fst (df_chart_grouped df)) /\
            forall d', In r (rows_of_day d' df) <-> d' = d)
         (values df).
Proof.
  apply (play_chart_leche acts_demo session_0); [first_run | widgets].
Defined.

Lemma mean_geb_trans (a b c : resumen) :
  mean_geb a b = true -> mean_geb b c = true -> mean_geb a c = true.
Proof.
  unfold mean_geb.
  destruct (PrimFloat.is_nan (Promedio_Diario c)); [reflexivity |].
  destruct (PrimFloat.is_nan (Promedio_Diario b)); [discriminate |].
  destruct (PrimFloat.is_nan (Promedio_Diario a)); [discriminate |].
  intros H1 H2. exact (leb_trans _ _ _ H2 H1).
Qed.

Lemma StronglySorted_app_inv {A : Type} (R : A -> A -> Prop) (l1 l2 : list A) :
  StronglySorted R (l1 ++ l2) ->
  forall x y, In x l1 -> In y l2 -> R x y.
Proof.
  induction l1 as [| a l1 IH]; intros H x y Hx Hy; [destruct Hx |].
  cbn in H. inversion H as [| ? ? Hs Hall]; subst.
  destruct Hx as [<- | Hx].
  - rewrite List.Forall_forall in Hall. apply Hall, in_or_app. now right.
  - now apply IH.
Qed.

(** X20: the bar chart of the productivity tab shows at most ten animals,
    those that come first in the summary, all of them when the summary has
    no more than ten; no animal left out has a higher daily mean than one
    shown, and an animal without a mean is shown only if none with a mean
    is left out. *)
Theorem top_10_best (df : DataFrame) :
  length (top_10 df) <= 10 /\
  produccion_media df = top_10 df ++ skipn 10 (produccion_media df) /\
  (length (produccion_media df) <= 10 -> top_10 df = produccion_media df) /\
  (forall shown left_out,
     In shown (top_10 df) -> In left_out (skipn 10 (produccion_media df)) ->
     if PrimFloat.is_nan (Promedio_Diario left_out) then True
     else PrimFloat.is_nan (Promedio_Diario shown) = false /\
          (Promedio_Diario left_out <=? Promedio_Diario shown)%float = true).
Proof.
  unfold top_10. split; [apply firstn_le_length |].
  split; [symmetry; apply firstn_skipn |].
  split; [apply firstn_all2 |].
  intros shown left_out H1 H2.
  assert (mean_geb shown left_out = true) as H.
  { apply (StronglySorted_app_inv (fun a b => mean_geb a b = true)
             (firstn 10 (produccion_media df))
             (skipn 10 (produccion_media df))); [| assumption | assumption].
    rewrite firstn_skipn. apply Sorted_StronglySorted.
    - intros a b c. apply mean_geb_trans.
    - apply sort_by_Sorted, mean_geb_total. }
  unfold mean_geb in H.
  destruct (PrimFloat.is_nan (Promedio_Diario left_out)); [exact I |].
  destruct (PrimFloat.is_nan (Promedio_Diario shown)); [discriminate |].
  now split.
Qed.

End Graficos.

(** * The productivity summary: what is counted *)

Section Conteo.








End Conteo.

(** * An identifier that spells a missing value *)

Section Identificador.

Lemma produccion_media_values (df df' : DataFrame) :
  values df' = values df -> produccion_media df' = produccion_media df.
Proof.
  intros E. unfold produccion_media, group_keys. rewrite E. f_equal.
  apply List.map_ext. intros k. unfold agg, group. now rewrite E.
Qed.




End Identificador.

(** * One interaction: the files it touches, and a deletion seen from the
      next run *)

Section Interaccion.

Lemma eliminar_registros_disk (k : ledger) (no_data : string) (ps : list nat)
    (df : DataFrame) (s : session) :
  (fst (eliminar_registros no_data ps df (data_file k) s) <> rerun ->
   snd (eliminar_registros no_data ps df (data_file k) s) = s) /\
  (forall filename,
     filename <> data_file k ->
     disk (snd (eliminar_registros no_data ps df (data_file k) s)) !! filename
     = disk s !! filename).
Proof.
  unfold eliminar_registros.
  destruct (empty df); [now split |].
  destruct ps as [| p ps]; [now split |].
  destruct (df_nuevo df (p :: ps)) as [d |]; [| now split].
  cbn [fst snd]. split; [intros H; now destruct H |].
  intros filename Hf. rewrite save_data_and_rerun_disk.
  now apply lookup_insert_ne.
Qed.

(** X23: an interaction touches at most the file of its own ledger, and no
    file at all unless it ends in a rerun: a refused record, a delete button
    pressed without a selection or on an empty ledger write nothing. *)
Theorem script_disk (a : action) (s : session) :
  (fst (script a s) <> rerun -> disk (snd (script a s)) = disk s) /\
  (forall filename, filename <> data_file (ledger_of a) ->
                    disk (snd (script a s)) !! filename = disk s !! filename).
Proof.
  unfold script. pose proof (carga_inicial_disk s) as Hd.
  destruct (carga_inicial s) as [fr s1]. cbn [snd] in Hd. rewrite <- Hd.
  assert (forall (k : ledger) (df : DataFrame) (filename : string),
            filename <> data_file k ->
            disk (save_data_and_rerun df (data_file k) s1) !! filename
            = disk s1 !! filename) as Hsave.
  { intros k df filename Hf. rewrite save_data_and_rerun_disk.
    now apply lookup_insert_ne. }
  destruct a as [f id ve vp vv | f id nombre picked l | f id l km c
                | ps | ps | ps]; cbn [ledger_of].
  - unfold registro_leche. destruct (_ || _); [now split |].
    destruct (String.eqb id ""); [now split |]. cbn [fst snd].
    split; [intros H; now destruct H | apply (Hsave Leche)].
  - unfold registro_ganado. destruct (String.eqb id ""); [now split |].
    cbn [fst snd]. split; [intros H; now destruct H | apply (Hsave Ganado)].
  - unfold registro_gasolina. destruct (String.eqb id ""); [now split |].
    destruct (_ && _); [now split |]. destruct (_ && _); [now split |].
    cbn [fst snd]. split; [intros H; now destruct H | apply (Hsave Gasolina)].
  - unfold borrar_leche.
    destruct (eliminar_registros_disk Leche
                "Aun no hay datos de trazabilidad de leche registrados."
                ps (df_leche fr) s1) as [H1 H2].
    split; [intros H; exact (f_equal disk (H1 H)) | exact H2].
  - unfold borrar_ganado.
    destruct (eliminar_registros_disk Ganado "No hay datos para borrar."
                ps (df_ganado fr) s1) as [H1 H2].
    split; [intros H; exact (f_equal disk (H1 H)) | exact H2].
  - unfold borrar_gasolina.
    destruct (eliminar_registros_disk Gasolina "No hay datos para borrar."
                ps (df_gasolina fr) s1) as [H1 H2].
    split; [intros H; exact (f_equal disk (H1 H)) | exact H2].
Qed.




End Interaccion.
